(** * The IoTDB operator's DataNode reconciler, embedded and verified

    Source: [iotdb-operator/internal/controller/datanode_controller.go].

    The controller derives a headless service, an optional exposure
    service and one StatefulSet from a [DataNode] object and converges
    the cluster towards them.  The Kubernetes objects are records that
    carry the fields the controller reads or writes, Go maps that are
    only compared are [gmap]s, Go maps that are ranged over are
    association lists together with the order in which the runtime
    yields them, and the calls on the cluster API are the actions of a
    small free monad, run against anything that answers them.

    The file has the data model and the controller first, then a model of
    the API server and sample specifications, then the properties: of the
    builders, of one pass against any cluster, of two passes against the
    API server, and of the deployed controller on the samples. *)

From stdpp Require Import gmap strings list fin_maps pretty.
From Stdlib Require Import ZArith.

Local Open Scope Z_scope.
Local Open Scope string_scope.
Local Open Scope list_scope.

(** ** Go values *)

(** [int32(x)] for an [int] x: wrap-around to 32 bits, two's complement. *)
Definition int32 (x : Z) : Z := (x + 2 ^ 31) mod 2 ^ 32 - 2 ^ 31.

(** A Go map that the code iterates with [range].  The list holds the
    entries in the order they were inserted; keys are unique. *)
Definition GoMap (V : Type) : Type := list (string * V).

(** The order in which one [range] statement yields the entries of a map.
    Go leaves it unspecified; it may differ from one loop to the next. *)
Definition RangeOrder (V : Type) : Type := GoMap V -> GoMap V.

Definition valid_order {V} (o : RangeOrder V) : Prop :=
  forall m, o m ≡ₚ m.

(** ** apimachinery: metadata, owner references, errors *)

Inductive Error : Type :=
| NotFound
| AlreadyExists
| Conflict
| SchemeError       (* the owner's Go type has no kind in the scheme *)
| OwnerError        (* cross-namespace owner or already controlled *)
| OtherError (msg : string).

#[global] Instance Error_eq_dec : EqDecision Error.
Proof. solve_decision. Defined.

Definition IsNotFound (e : Error) : bool :=
  match e with NotFound => true | _ => false end.
Definition IsConflict (e : Error) : bool :=
  match e with Conflict => true | _ => false end.

Record OwnerReference : Type := {
  or_APIVersion : string;
  or_Kind : string;
  or_Name : string;
  or_UID : string;
  or_Controller : bool;
  or_BlockOwnerDeletion : bool }.

#[global] Instance OwnerReference_eq_dec : EqDecision OwnerReference.
Proof. solve_decision. Defined.

(** The resource version is the object's concurrency-control token: an
    opaque marker the API server renews on every write.  0 stands for the
    empty string of an object that was never stored. *)
Record ObjectMeta : Type := {
  om_Name : string;
  om_Namespace : string;
  om_Labels : gmap string string;
  om_Annotations : gmap string string;
  om_OwnerReferences : list OwnerReference;
  om_ResourceVersion : nat }.

#[global] Instance ObjectMeta_eq_dec : EqDecision ObjectMeta.
Proof. solve_decision. Defined.

(** [types.NamespacedName]: namespace and name. *)
Abbreviation NamespacedName := (string * string)%type.

(** ** core/v1 and apps/v1 objects *)

Inductive IntOrString : Type :=
| IntVal (i : Z)
| StrVal (s : string).

#[global] Instance IntOrString_eq_dec : EqDecision IntOrString.
Proof. solve_decision. Defined.

(** [intstr.FromInt32] *)
Definition FromInt32 (i : Z) : IntOrString := IntVal i.

Record ServicePort : Type := {
  sp_Name : string;
  sp_Port : Z;
  sp_NodePort : Z;
  sp_TargetPort : IntOrString }.

#[global] Instance ServicePort_eq_dec : EqDecision ServicePort.
Proof. solve_decision. Defined.

Record ServiceSpec : Type := {
  ss_Type : string;
  ss_ClusterIP : string;
  ss_Ports : list ServicePort;
  ss_Selector : gmap string string }.

#[global] Instance ServiceSpec_eq_dec : EqDecision ServiceSpec.
Proof. solve_decision. Defined.

Record Service : Type := {
  svc_Meta : ObjectMeta;
  svc_Spec : ServiceSpec }.

#[global] Instance Service_eq_dec : EqDecision Service.
Proof. solve_decision. Defined.

Definition Quantity : Type := string.

Record PersistentVolumeClaimSpec : Type := {
  pvcs_AccessModes : list string;
  pvcs_StorageClassName : option string;
  pvcs_Requests : gmap string Quantity }.

#[global] Instance PersistentVolumeClaimSpec_eq_dec :
  EqDecision PersistentVolumeClaimSpec.
Proof. solve_decision. Defined.

Record PersistentVolumeClaim : Type := {
  pvc_Meta : ObjectMeta;
  pvc_Spec : PersistentVolumeClaimSpec }.

#[global] Instance PersistentVolumeClaim_eq_dec :
  EqDecision PersistentVolumeClaim.
Proof. solve_decision. Defined.

(** An environment variable has a literal value or takes it from a field
    of the pod ([ValueFrom.FieldRef.FieldPath]). *)
Record EnvVar : Type := {
  ev_Name : string;
  ev_Value : string;
  ev_ValueFrom : option string }.

#[global] Instance EnvVar_eq_dec : EqDecision EnvVar.
Proof. solve_decision. Defined.

Record ContainerPort : Type := {
  cp_Name : string;
  cp_ContainerPort : Z }.

#[global] Instance ContainerPort_eq_dec : EqDecision ContainerPort.
Proof. solve_decision. Defined.

Record VolumeMount : Type := {
  vm_Name : string;
  vm_MountPath : string;
  vm_SubPath : string }.

#[global] Instance VolumeMount_eq_dec : EqDecision VolumeMount.
Proof. solve_decision. Defined.

Record ResourceRequirements : Type := {
  rr_Limits : gmap string Quantity;
  rr_Requests : gmap string Quantity }.

#[global] Instance ResourceRequirements_eq_dec :
  EqDecision ResourceRequirements.
Proof. solve_decision. Defined.

Record Container : Type := {
  c_Name : string;
  c_Image : string;
  c_ImagePullPolicy : string;
  c_Ports : list ContainerPort;
  c_Resources : ResourceRequirements;
  c_Env : list EnvVar;
  c_VolumeMounts : list VolumeMount }.

#[global] Instance Container_eq_dec : EqDecision Container.
Proof. solve_decision. Defined.

(** One term of [PodAntiAffinity.RequiredDuringSchedulingIgnoredDuringExecution]. *)
Record PodAffinityTerm : Type := {
  pat_MatchLabels : gmap string string;
  pat_TopologyKey : string }.

#[global] Instance PodAffinityTerm_eq_dec : EqDecision PodAffinityTerm.
Proof. solve_decision. Defined.

Record PodTemplateSpec : Type := {
  pt_Labels : gmap string string;
  pt_RequiredAntiAffinity : list PodAffinityTerm;
  pt_Containers : list Container }.

#[global] Instance PodTemplateSpec_eq_dec : EqDecision PodTemplateSpec.
Proof. solve_decision. Defined.

Record StatefulSetSpec : Type := {
  sts_Replicas : Z;
  sts_Selector : gmap string string;
  sts_ServiceName : string;
  sts_Template : PodTemplateSpec;
  sts_VolumeClaimTemplates : list PersistentVolumeClaim }.

#[global] Instance StatefulSetSpec_eq_dec : EqDecision StatefulSetSpec.
Proof. solve_decision. Defined.

Record StatefulSet : Type := {
  st_Meta : ObjectMeta;
  st_Spec : StatefulSetSpec }.

#[global] Instance StatefulSet_eq_dec : EqDecision StatefulSet.
Proof. solve_decision. Defined.

(** [reflect.DeepEqual] on two values of one of the types above: maps are
    compared by content, everything else field by field. *)
Definition DeepEqual {A} `{EqDecision A} (x y : A) : bool := bool_decide (x = y).

(** ** iotdb/v1: the DataNode custom resource, as far as the controller
    reads it *)

Record DataNodeService : Type := {
  dns_Type : string;
  dns_Ports : GoMap Z }.

Record DataNodeSpec : Type := {
  dn_Replicas : Z;
  dn_Image : string;
  dn_Envs : option (GoMap string);       (* None is the nil map *)
  dn_Limits : gmap string Quantity;      (* Resources.Limits *)
  dn_VolumeClaimTemplate : PersistentVolumeClaimSpec;
  dn_Service : option DataNodeService }. (* None is the nil pointer *)

Record DataNode : Type := {
  dn_Name : string;
  dn_Namespace : string;
  dn_UID : string;
  dn_Spec : DataNodeSpec }.

(** ** controller-runtime: schemes and owner references *)

Record GroupVersionKind : Type := {
  gvk_APIVersion : string;
  gvk_Kind : string }.

(** A scheme maps Go types to kinds.  The controller only ever asks for
    the kind of [DataNode]; the scheme has it or not. *)
Record Scheme : Type := { scheme_DataNode : option GroupVersionKind }.

Definition controllerRef (gvk : GroupVersionKind) (owner : DataNode)
  : OwnerReference :=
  {| or_APIVersion := gvk_APIVersion gvk;
     or_Kind := gvk_Kind gvk;
     or_Name := dn_Name owner;
     or_UID := dn_UID owner;
     or_Controller := true;
     or_BlockOwnerDeletion := true |}.

(** [controllerutil.SetControllerReference owner controlled scheme], on the
    metadata of the controlled object: the owner is validated (a
    namespaced owner owns objects of its own namespace only), its kind is
    looked up in the scheme, an object that another controller already owns
    is refused, and the reference is added.  The controller passes it
    fresh objects only, which have no owner references yet. *)
Definition SetControllerReference (owner : DataNode) (controlled : ObjectMeta)
    (scheme : Scheme) : Error + ObjectMeta :=
  if negb (dn_Namespace owner =? "")%string
     && negb (dn_Namespace owner =? om_Namespace controlled)%string
  then inl OwnerError
  else
    match scheme_DataNode scheme with
    | None => inl SchemeError
    | Some gvk =>
        let ref := controllerRef gvk owner in
        match List.find or_Controller (om_OwnerReferences controlled) with
        | Some existing =>
            if bool_decide (existing = ref) then inr controlled
            else inl OwnerError
        | None =>
            inr {| om_Name := om_Name controlled;
                   om_Namespace := om_Namespace controlled;
                   om_Labels := om_Labels controlled;
                   om_Annotations := om_Annotations controlled;
                   om_OwnerReferences := (om_OwnerReferences controlled ++ [ref])%list;
                   om_ResourceVersion := om_ResourceVersion controlled |}
        end
    end.

(** A function of the controller returns, or the goroutine panics (a nil
    pointer is dereferenced). *)
Inductive Go (A : Type) : Type :=
| Returned (a : A)
| Panicked.
Arguments Returned {A} a.
Arguments Panicked {A}.

(** ** The port registry *)

(** The names the data node's configuration gives its ports and the
    numbers the process binds them to: the keys and values of the
    rewriting chain in [constructStateFulSetForDataNode]. *)
Definition PortRegistry : list (string * Z) :=
  [ ("dn_rpc_port", 6667);
    ("dn_internal_port", 10730);
    ("dn_mpp_data_exchange_port", 10740);
    ("dn_schema_region_consensus_port", 10750);
    ("dn_data_region_consensus_port", 10760);
    ("dn_metric_prometheus_reporter_port", 9092);
    ("rest_service_port", 18080) ].

Definition registryPort (key : string) : option Z :=
  snd <$> List.find (fun e => (fst e =? key)%string) PortRegistry.

(** The subset of registry names the exposure service honours. *)
Definition ExposedNames : list string :=
  [ "dn_metric_prometheus_reporter_port"; "rest_service_port"; "dn_rpc_port" ].

(** ** The cluster API as the controller sees it *)

Inductive GetResult (A : Type) : Type :=
| Found (obj : A)
| GetFailed (err : Error).
Arguments Found {A} obj.
Arguments GetFailed {A} err.

(** The calls of [client.Client] the controller makes. *)
Inductive Call : Type :=
| GetDataNode (key : NamespacedName)
| GetService (key : NamespacedName)
| GetStatefulSet (key : NamespacedName)
| CreateService (obj : Service)
| UpdateService (obj : Service)
| CreateStatefulSet (obj : StatefulSet)
| UpdateStatefulSet (obj : StatefulSet).

Definition Reply (c : Call) : Type :=
  match c with
  | GetDataNode _ => GetResult DataNode
  | GetService _ => GetResult Service
  | GetStatefulSet _ => GetResult StatefulSet
  | CreateService _ | UpdateService _
  | CreateStatefulSet _ | UpdateStatefulSet _ => option Error
  end.

(** A computation that calls the cluster and continues with the reply. *)
Inductive Prog (A : Type) : Type :=
| Ret (a : A)
| Do (c : Call) (k : Reply c -> Prog A).
Arguments Ret {A} a.
Arguments Do {A} c k.

Fixpoint bind {A B} (p : Prog A) (f : A -> Prog B) : Prog B :=
  match p with
  | Ret a => f a
  | Do c k => Do c (fun rep => bind (k rep) f)
  end.

#[global] Instance Prog_ret : MRet Prog := @Ret.
#[global] Instance Prog_bind : MBind Prog := fun A B f p => bind p f.

(** [service.ResourceVersion = existingService.ResourceVersion] *)
Definition withVersion (m : ObjectMeta) (rv : nat) : ObjectMeta :=
  {| om_Name := om_Name m;
     om_Namespace := om_Namespace m;
     om_Labels := om_Labels m;
     om_Annotations := om_Annotations m;
     om_OwnerReferences := om_OwnerReferences m;
     om_ResourceVersion := rv |}.

Definition serviceWithVersion (s : Service) (rv : nat) : Service :=
  {| svc_Meta := withVersion (svc_Meta s) rv; svc_Spec := svc_Spec s |}.

Definition statefulSetWithVersion (s : StatefulSet) (rv : nat) : StatefulSet :=
  {| st_Meta := withVersion (st_Meta s) rv; st_Spec := st_Spec s |}.

(** ** Running a computation against a cluster *)

(** What the cluster answered, whatever the call. *)
Inductive Answer : Type :=
| GotDataNode (res : GetResult DataNode)
| GotService (res : GetResult Service)
| GotStatefulSet (res : GetResult StatefulSet)
| Wrote (err : option Error).

Definition answer (c : Call) : Reply c -> Answer :=
  match c as c0 return Reply c0 -> Answer with
  | GetDataNode _ => GotDataNode
  | GetService _ => GotService
  | GetStatefulSet _ => GotStatefulSet
  | CreateService _ | UpdateService _
  | CreateStatefulSet _ | UpdateStatefulSet _ => Wrote
  end.

Definition Event : Type := (Call * Answer)%type.

Section Run.
Context {W : Type}.
(** Whatever answers the calls: the API server together with every
    other client that writes to it in between. *)
Variable serve : forall c : Call, W -> Reply c * W.

Fixpoint run {A} (p : Prog A) (w : W) : A * W * list Event :=
  match p with
  | Ret a => (a, w, [])
  | Do c k =>
      let '(rep, w1) := serve c w in
      let '(a, w2, t) := run (k rep) w1 in
      (a, w2, (c, answer c rep) :: t)
  end.

Definition result {A} (p : Prog A) (w : W) : A := (run p w).1.1.
Definition final {A} (p : Prog A) (w : W) : W := (run p w).1.2.
Definition trace {A} (p : Prog A) (w : W) : list Event := (run p w).2.
End Run.

Definition calls (t : list Event) : list Call := fst <$> t.

Definition isWrite (c : Call) : bool :=
  match c with
  | CreateService _ | UpdateService _
  | CreateStatefulSet _ | UpdateStatefulSet _ => true
  | _ => false
  end.

Definition writes (t : list Event) : list Call := filter isWrite (calls t).

(** Every call a computation can make, whatever the replies, satisfies P. *)
Fixpoint AllCalls {A} (P : Call → Prop) (p : Prog A) : Prop :=
  match p with
  | Ret _ => True
  | Do c k => P c ∧ ∀ rep, AllCalls P (k rep)
  end.

(** The owner reference [ref] is on the object a write submits, and on
    every claim template embedded in it. *)
Definition callOwned (ref : OwnerReference) (c : Call) : Prop :=
  match c with
  | CreateService s | UpdateService s => ref ∈ om_OwnerReferences (svc_Meta s)
  | CreateStatefulSet s | UpdateStatefulSet s =>
      ref ∈ om_OwnerReferences (st_Meta s)
      ∧ Forall (λ pvc, ref ∈ om_OwnerReferences (pvc_Meta pvc))
          (sts_VolumeClaimTemplates (st_Spec s))
  | _ => True
  end.

(** What a call does, to which kind of object, under which name. *)
Inductive Verb : Type := VGet | VCreate | VUpdate.
Inductive Kind : Type := KDataNode | KService | KStatefulSet.

Definition describe (c : Call) : Verb * Kind * NamespacedName :=
  match c with
  | GetDataNode key => (VGet, KDataNode, key)
  | GetService key => (VGet, KService, key)
  | GetStatefulSet key => (VGet, KStatefulSet, key)
  | CreateService s =>
      (VCreate, KService, (om_Namespace (svc_Meta s), om_Name (svc_Meta s)))
  | UpdateService s =>
      (VUpdate, KService, (om_Namespace (svc_Meta s), om_Name (svc_Meta s)))
  | CreateStatefulSet s =>
      (VCreate, KStatefulSet, (om_Namespace (st_Meta s), om_Name (st_Meta s)))
  | UpdateStatefulSet s =>
      (VUpdate, KStatefulSet, (om_Namespace (st_Meta s), om_Name (st_Meta s)))
  end.

(** ** A model of the API server

    Objects are stored under namespace and name.  A create fails with
    [AlreadyExists] when the name is taken, an update fails with
    [Conflict] when the resource version it carries is not the stored
    one; a successful write stores the submitted object whole, under a
    new resource version. *)

Record Cluster : Type := {
  cl_DataNodes : gmap NamespacedName DataNode;
  cl_Services : gmap NamespacedName Service;
  cl_StatefulSets : gmap NamespacedName StatefulSet;
  cl_Version : nat }.

Definition serviceKey (s : Service) : NamespacedName :=
  (om_Namespace (svc_Meta s), om_Name (svc_Meta s)).
Definition statefulSetKey (s : StatefulSet) : NamespacedName :=
  (om_Namespace (st_Meta s), om_Name (st_Meta s)).

Definition lookupResult {A} (o : option A) : GetResult A :=
  match o with Some x => Found x | None => GetFailed NotFound end.

Definition storeService (s : Service) (cl : Cluster) : Cluster :=
  {| cl_DataNodes := cl_DataNodes cl;
     cl_Services :=
       <[ serviceKey s := serviceWithVersion s (S (cl_Version cl)) ]>
         (cl_Services cl);
     cl_StatefulSets := cl_StatefulSets cl;
     cl_Version := S (cl_Version cl) |}.

Definition storeStatefulSet (s : StatefulSet) (cl : Cluster) : Cluster :=
  {| cl_DataNodes := cl_DataNodes cl;
     cl_Services := cl_Services cl;
     cl_StatefulSets :=
       <[ statefulSetKey s := statefulSetWithVersion s (S (cl_Version cl)) ]>
         (cl_StatefulSets cl);
     cl_Version := S (cl_Version cl) |}.

Definition apiServer (c : Call) : Cluster -> Reply c * Cluster :=
  match c as c0 return Cluster -> Reply c0 * Cluster with
  | GetDataNode key => fun cl => (lookupResult (cl_DataNodes cl !! key), cl)
  | GetService key => fun cl => (lookupResult (cl_Services cl !! key), cl)
  | GetStatefulSet key => fun cl => (lookupResult (cl_StatefulSets cl !! key), cl)
  | CreateService s => fun cl =>
      match cl_Services cl !! serviceKey s with
      | Some _ => (Some AlreadyExists, cl)
      | None => (None, storeService s cl)
      end
  | UpdateService s => fun cl =>
      match cl_Services cl !! serviceKey s with
      | None => (Some NotFound, cl)
      | Some live =>
          if bool_decide (om_ResourceVersion (svc_Meta live)
                          = om_ResourceVersion (svc_Meta s))
          then (None, storeService s cl)
          else (Some Conflict, cl)
      end
  | CreateStatefulSet s => fun cl =>
      match cl_StatefulSets cl !! statefulSetKey s with
      | Some _ => (Some AlreadyExists, cl)
      | None => (None, storeStatefulSet s cl)
      end
  | UpdateStatefulSet s => fun cl =>
      match cl_StatefulSets cl !! statefulSetKey s with
      | None => (Some NotFound, cl)
      | Some live =>
          if bool_decide (om_ResourceVersion (st_Meta live)
                          = om_ResourceVersion (st_Meta s))
          then (None, storeStatefulSet s cl)
          else (Some Conflict, cl)
      end
  end.

(** The API server with other clients writing to it: before the call
    number n of the pass is served, [others n] has happened. *)
Definition apiServerWith (others : nat -> Cluster -> Cluster) (c : Call)
  : nat * Cluster -> Reply c * (nat * Cluster) :=
  fun '(n, cl) =>
    let '(rep, cl') := apiServer c (others n cl) in
    (rep, (S n, cl')).

(** ** The desired-state builder *)

(** Constants and helpers of the [controller] package that are declared
    outside [datanode_controller.go]: the two node names and
    [strutil.ToKebabCase].  The controller is verified for any values of
    them. *)
Class Package : Type := {
  DataNodeName : string;
  ConfigNodeName : string;
  ToKebabCase : string -> string }.

Section Controller.

Context `{Package}.

Record DataNodeReconciler : Type := { r_Scheme : Scheme }.

Definition appLabels : gmap string string := {[ "app" := DataNodeName ]}.

(** The chain of comparisons on the key of an environment entry. *)
Definition rewriteEnv (key value : string) : string :=
  if (key =? "dn_rpc_port")%string then "6667"
  else if (key =? "dn_internal_port")%string then "10730"
  else if (key =? "dn_mpp_data_exchange_port")%string then "10740"
  else if (key =? "dn_schema_region_consensus_port")%string then "10750"
  else if (key =? "dn_data_region_consensus_port")%string then "10760"
  else if (key =? "dn_metric_prometheus_reporter_port")%string then "9092"
  else if (key =? "rest_service_port")%string then "18080"
  else value.

Definition zeroEnvVar : EnvVar :=
  {| ev_Name := ""; ev_Value := ""; ev_ValueFrom := None |}.

(** The body of [for key, value := range dataNode.Spec.Envs]: the entries
    come in the order of this run of the loop, entry number i is written
    to [envVars[i]]. *)
Fixpoint rangeEnvs (entries : GoMap string) (i : nat) (envVars : list EnvVar)
  : list EnvVar :=
  match entries with
  | [] => envVars
  | (key, value) :: rest =>
      rangeEnvs rest (S i)
        (<[ i := {| ev_Name := key; ev_Value := rewriteEnv key value;
                    ev_ValueFrom := None |} ]> envVars)
  end.

(** [Limits.Cpu()] and [Limits.Memory()]: the quantity of the list, or the
    zero quantity. *)
Definition quantityOf (name : string) (l : gmap string Quantity) : Quantity :=
  default "0" (l !! name).

Definition constructPVCForDataNode (r : DataNodeReconciler) (dataNode : DataNode)
  : option PersistentVolumeClaim :=
  let meta := {| om_Name := DataNodeName;
                 om_Namespace := dn_Namespace dataNode;
                 om_Labels := appLabels;
                 om_Annotations := ∅;
                 om_OwnerReferences := [];
                 om_ResourceVersion := 0 |} in
  match SetControllerReference dataNode meta (r_Scheme r) with
  | inl _ => None
  | inr meta' =>
      Some {| pvc_Meta := meta';
              pvc_Spec := dn_VolumeClaimTemplate (dn_Spec dataNode) |}
  end.

Definition envVarsFor (dataNode : DataNode) (order : RangeOrder string)
  : list EnvVar :=
  let '(envNum, envVars) :=
    match dn_Envs (dn_Spec dataNode) with
    | None => (0%nat, replicate 3 zeroEnvVar)
    | Some envs =>
        (length envs,
         rangeEnvs (order envs) 0 (replicate (length envs + 3) zeroEnvVar))
    end in
  let val1 := ConfigNodeName +:+ "-0." +:+ ConfigNodeName +:+ "-headless."
              +:+ dn_Namespace dataNode +:+ ".svc.cluster.local:10710" in
  let val2 := "$(POD_NAME)." +:+ DataNodeName +:+ "-headless."
              +:+ dn_Namespace dataNode +:+ ".svc.cluster.local" in
  <[ (envNum + 2)%nat :=
       {| ev_Name := "dn_internal_address"; ev_Value := val2;
          ev_ValueFrom := None |} ]>
  (<[ (envNum + 1)%nat :=
       {| ev_Name := "dn_seed_config_node"; ev_Value := val1;
          ev_ValueFrom := None |} ]>
  (<[ envNum :=
       {| ev_Name := "POD_NAME"; ev_Value := "";
          ev_ValueFrom := Some "metadata.name" |} ]> envVars)).

Definition constructStateFulSetForDataNode (r : DataNodeReconciler)
    (dataNode : DataNode) (order : RangeOrder string)
  : Go (option StatefulSet) :=
  let labels := appLabels in
  let replicas := int32 (dn_Replicas (dn_Spec dataNode)) in
  let envVars := envVarsFor dataNode order in
  match constructPVCForDataNode r dataNode with
  | None => Panicked                  (* [*r.constructPVCForDataNode(..)] on nil *)
  | Some pvcTemplate =>
      let pvcName := om_Name (pvc_Meta pvcTemplate) in
      let limits := dn_Limits (dn_Spec dataNode) in
      let resources : gmap string Quantity :=
        <[ "cpu" := quantityOf "cpu" limits ]>
        (<[ "memory" := quantityOf "memory" limits ]> ∅) in
      let meta := {| om_Name := DataNodeName;
                     om_Namespace := dn_Namespace dataNode;
                     om_Labels := labels;
                     om_Annotations := ∅;
                     om_OwnerReferences := [];
                     om_ResourceVersion := 0 |} in
      let spec :=
        {| sts_Replicas := replicas;
           sts_Selector := labels;
           sts_ServiceName := DataNodeName +:+ "-headless";
           sts_Template :=
             {| pt_Labels := labels;
                pt_RequiredAntiAffinity :=
                  [ {| pat_MatchLabels := labels;
                       pat_TopologyKey := "kubernetes.io/hostname" |} ];
                pt_Containers :=
                  [ {| c_Name := DataNodeName;
                       c_Image := dn_Image (dn_Spec dataNode);
                       c_ImagePullPolicy := "IfNotPresent";
                       c_Ports :=
                         [ {| cp_Name := "rpc-port"; cp_ContainerPort := 6667 |};
                           {| cp_Name := "internal-port"; cp_ContainerPort := 10730 |};
                           {| cp_Name := "exchange-port"; cp_ContainerPort := 10740 |};
                           {| cp_Name := "schema-port"; cp_ContainerPort := 10750 |};
                           {| cp_Name := "data-port"; cp_ContainerPort := 10760 |};
                           {| cp_Name := "rest-port"; cp_ContainerPort := 18080 |};
                           {| cp_Name := "metric-port"; cp_ContainerPort := 9092 |} ];
                       c_Resources :=
                         {| rr_Limits := resources; rr_Requests := resources |};
                       c_Env := envVars;
                       c_VolumeMounts :=
                         [ {| vm_Name := pvcName; vm_MountPath := "/iotdb/data";
                              vm_SubPath := "data" |};
                           {| vm_Name := pvcName; vm_MountPath := "/iotdb/logs";
                              vm_SubPath := "logs" |};
                           {| vm_Name := pvcName; vm_MountPath := "/iotdb/ext";
                              vm_SubPath := "ext" |};
                           {| vm_Name := pvcName; vm_MountPath := "/iotdb/.env";
                              vm_SubPath := ".env" |};
                           {| vm_Name := pvcName; vm_MountPath := "/iotdb/activation";
                              vm_SubPath := "activation" |} ] |} ] |};
           sts_VolumeClaimTemplates := [ pvcTemplate ] |} in
      match SetControllerReference dataNode meta (r_Scheme r) with
      | inl _ => Returned None
      | inr meta' => Returned (Some {| st_Meta := meta'; st_Spec := spec |})
      end
  end.

Definition zeroServicePort : ServicePort :=
  {| sp_Name := ""; sp_Port := 0; sp_NodePort := 0; sp_TargetPort := IntVal 0 |}.

Definition exposedPort (key : string) (port value : Z) : ServicePort :=
  {| sp_Name := ToKebabCase key;
     sp_Port := port;
     sp_NodePort := value;
     sp_TargetPort := FromInt32 port |}.

(** The body of [for key, value := range dataNode.Spec.Service.Ports]: a
    recognised entry is written to [ports[i]] and i advances, any other
    entry is skipped.  The result is the final i and the array. *)
Fixpoint rangePorts (entries : GoMap Z) (i : nat) (ports : list ServicePort)
  : nat * list ServicePort :=
  match entries with
  | [] => (i, ports)
  | (key, value) :: rest =>
      if (key =? "dn_metric_prometheus_reporter_port")%string then
        rangePorts rest (S i) (<[ i := exposedPort key 9092 value ]> ports)
      else if (key =? "rest_service_port")%string then
        rangePorts rest (S i) (<[ i := exposedPort key 18080 value ]> ports)
      else if (key =? "dn_rpc_port")%string then
        rangePorts rest (S i) (<[ i := exposedPort key 6667 value ]> ports)
      else rangePorts rest i ports
  end.

Definition headlessPort (name : string) (port target : Z) : ServicePort :=
  {| sp_Name := name; sp_Port := port; sp_NodePort := 0;
     sp_TargetPort := FromInt32 target |}.

Definition headlessPorts : list ServicePort :=
  [ headlessPort "dn-internal-port" 10730 10730;
    headlessPort "dn-mpp-data-exchange-port" 10740 10750;
    headlessPort "dn-data-region-consensus-port" 10760 10760;
    headlessPort "dn-schema-region-consensus-port" 10750 10750;
    headlessPort "dn-rpc-port" 6667 6667;
    headlessPort "rest-service-port" 18080 18080;
    headlessPort "dn-metric-prometheus-reporter-port" 9092 9092 ].

Definition serviceMeta (name : string) (dataNode : DataNode) : ObjectMeta :=
  {| om_Name := name;
     om_Namespace := dn_Namespace dataNode;
     om_Labels := appLabels;
     om_Annotations := ∅;
     om_OwnerReferences := [];
     om_ResourceVersion := 0 |}.

Definition constructServiceForDataNode (r : DataNodeReconciler)
    (dataNode : DataNode) (order : RangeOrder Z) : Error + list Service :=
  let headlessSpec := {| ss_Type := ""; ss_ClusterIP := "None";
                         ss_Ports := headlessPorts;
                         ss_Selector := appLabels |} in
  match SetControllerReference dataNode
          (serviceMeta (DataNodeName +:+ "-headless") dataNode) (r_Scheme r) with
  | inl err => inl err
  | inr hmeta =>
      let services := [ {| svc_Meta := hmeta; svc_Spec := headlessSpec |} ] in
      match dn_Service (dn_Spec dataNode) with
      | Some svc =>
          if bool_decide (0 < length (dns_Ports svc))%nat then
            let '(i, ports) :=
              rangePorts (order (dns_Ports svc)) 0
                (replicate (length (dns_Ports svc)) zeroServicePort) in
            if bool_decide (0 < i)%nat then
              let nodePorts := take i ports in
              let spec := {| ss_Type := dns_Type svc; ss_ClusterIP := "";
                             ss_Ports := nodePorts;
                             ss_Selector := appLabels |} in
              match SetControllerReference dataNode
                      (serviceMeta DataNodeName dataNode) (r_Scheme r) with
              | inl err => inl err
              | inr nmeta =>
                  inr (services ++ [ {| svc_Meta := nmeta; svc_Spec := spec |} ])%list
              end
            else inr services
          else inr services
      | None => inr services
      end
  end.


(** ** Reconcile *)

(** The body of the loop over the desired services.  [Some err] leaves
    [Reconcile] with that error, [None] goes on with the next service. *)
Definition ensureService (service : Service) : Prog (option Error) :=
  Do (GetService (om_Namespace (svc_Meta service), om_Name (svc_Meta service)))
    (fun res =>
       match res with
       | GetFailed err =>
           if IsNotFound err then Do (CreateService service) Ret
           else Ret (Some err)
       | Found existingService =>
           if negb (DeepEqual (svc_Spec existingService) (svc_Spec service)) then
             Do (UpdateService
                   (serviceWithVersion service
                      (om_ResourceVersion (svc_Meta existingService)))) Ret
           else Ret None
       end).

Fixpoint rangeServices (services : list Service) : Prog (option Error) :=
  match services with
  | [] => Ret None
  | service :: rest =>
      e ← ensureService service;
      match e with
      | Some err => Ret (Some err)
      | None => rangeServices rest
      end
  end.

(** The closure passed to [retry.RetryOnConflict].  Neither call site
    checks the pointer it gets from [constructStateFulSetForDataNode]. *)
Definition ensureStatefulSet (r : DataNodeReconciler) (dataNode : DataNode)
    (order : RangeOrder string) : Prog (Go (option Error)) :=
  Do (GetStatefulSet (dn_Namespace dataNode, dn_Name dataNode))
    (fun res =>
       match res with
       | GetFailed err =>
           if IsNotFound err then
             match constructStateFulSetForDataNode r dataNode order with
             | Panicked => Ret Panicked
             | Returned None => Ret Panicked     (* [r.Create(ctx, nil)] *)
             | Returned (Some stateFulSet) =>
                 Do (CreateStatefulSet stateFulSet) (fun e => Ret (Returned e))
             end
           else Ret (Returned (Some err))
       | Found current =>
           match constructStateFulSetForDataNode r dataNode order with
           | Panicked => Ret Panicked
           | Returned None => Ret Panicked       (* [updatedStateFulSet.Spec] *)
           | Returned (Some updatedStateFulSet) =>
               if negb (DeepEqual (st_Spec current) (st_Spec updatedStateFulSet))
               then
                 Do (UpdateStatefulSet
                       (statefulSetWithVersion updatedStateFulSet
                          (om_ResourceVersion (st_Meta current))))
                    (fun e => Ret (Returned e))
               else Ret (Returned None)
           end
       end).

(** [retry.DefaultRetry.Steps] of client-go. *)
Definition DefaultRetrySteps : nat := 5.

(** [retry.RetryOnConflict]: [fn] runs until it succeeds, fails with an
    error that is not a conflict, or has run [steps] times; then the last
    conflict is the result.  [n] counts the runs made so far. *)
Fixpoint RetryOnConflict (steps : nat) (fn : nat -> Prog (Go (option Error)))
    (n : nat) (lastErr : option Error) : Prog (Go (option Error)) :=
  match steps with
  | O => Ret (Returned lastErr)
  | S steps' =>
      res ← fn n;
      match res with
      | Panicked => Ret Panicked
      | Returned None => Ret (Returned None)
      | Returned (Some err) =>
          if IsConflict err then RetryOnConflict steps' fn (S n) (Some err)
          else Ret (Returned (Some err))
      end
  end.

(** The retried step of [Reconcile]. *)
Definition ensureWorkload (r : DataNodeReconciler) (dataNode : DataNode)
    (envOrder : nat -> RangeOrder string) : Prog (Go (option Error)) :=
  RetryOnConflict DefaultRetrySteps
    (fun n => ensureStatefulSet r dataNode (envOrder n)) 0 None.

(** One reconciliation pass.  [portsOrder] is the order of the one loop
    over the exposure ports, [envOrder n] the order of the loop over the
    environment in run [n] of the retried closure.  The result is the
    error [Reconcile] returns, if any. *)
Definition Reconcile (r : DataNodeReconciler) (req : NamespacedName)
    (portsOrder : RangeOrder Z) (envOrder : nat -> RangeOrder string)
  : Prog (Go (option Error)) :=
  Do (GetDataNode req)
    (fun res =>
       match res with
       | GetFailed err =>
           if IsNotFound err then Ret (Returned None)
           else Ret (Returned (Some err))
       | Found dataNode =>
           match constructServiceForDataNode r dataNode portsOrder with
           | inl err => Ret (Returned (Some err))
           | inr services =>
               e ← rangeServices services;
               match e with
               | Some err => Ret (Returned (Some err))
               | None => ensureWorkload r dataNode envOrder
               end
           end
       end).

End Controller.

(** ** The controller as deployed: the constants of the package *)

Module Deployed.

(** snake_case to kebab-case, on lower-case names. *)
Fixpoint kebab (s : string) : string :=
  match s with
  | EmptyString => EmptyString
  | String c rest =>
      String (if Ascii.eqb c (Ascii.ascii_of_nat 95) then Ascii.ascii_of_nat 45 else c)
        (kebab rest)
  end.

Definition package : Package :=
  {| DataNodeName := "datanode";
     ConfigNodeName := "confignode";
     ToKebabCase := kebab |}.

Definition scheme : Scheme :=
  {| scheme_DataNode :=
       Some {| gvk_APIVersion := "iotdb.apache.org/v1"; gvk_Kind := "DataNode" |} |}.
Definition reconciler : DataNodeReconciler := {| r_Scheme := scheme |}.

(** A scheme the DataNode type was never added to. *)
Definition bareReconciler : DataNodeReconciler :=
  {| r_Scheme := {| scheme_DataNode := None |} |}.

Definition services := @constructServiceForDataNode package.
Definition statefulSet := @constructStateFulSetForDataNode package.
Definition pass := @Reconcile package.

End Deployed.

(** ** Sample specifications *)

Definition sampleClaim : PersistentVolumeClaimSpec :=
  {| pvcs_AccessModes := ["ReadWriteOnce"];
     pvcs_StorageClassName := Some "local-storage";
     pvcs_Requests := {[ "storage" := "200Gi" ]} |}.

Definition sampleSpec : DataNodeSpec :=
  {| dn_Replicas := 3;
     dn_Image := "apache/iotdb:latest";
     dn_Envs := None;
     dn_Limits := {[ "cpu" := "8000m"; "memory" := "16Gi" ]};
     dn_VolumeClaimTemplate := sampleClaim;
     dn_Service :=
       Some {| dns_Type := "NodePort"; dns_Ports := [("dn_rpc_port", 30001)] |} |}.

Definition sampleNode (name : string) (spec : DataNodeSpec) : DataNode :=
  {| dn_Name := name; dn_Namespace := "iotdb"; dn_UID := "uid-1";
     dn_Spec := spec |}.

Definition clusterWith (dn : DataNode) : Cluster :=
  {| cl_DataNodes := {[ (dn_Namespace dn, dn_Name dn) := dn ]};
     cl_Services := ∅;
     cl_StatefulSets := ∅;
     cl_Version := 0 |}.

Definition inOrder {V} : RangeOrder V := fun m => m.
Definition reversed {V} : RangeOrder V := fun m => reverse m.


Definition twoEnvs : GoMap string :=
  [ ("dn_rpc_port", "7000"); ("dn_max_connection", "64") ].

Definition specWithEnvs : DataNodeSpec :=
  {| dn_Replicas := 3;
     dn_Image := "apache/iotdb:latest";
     dn_Envs := Some twoEnvs;
     dn_Limits := {[ "cpu" := "8000m"; "memory" := "16Gi" ]};
     dn_VolumeClaimTemplate := sampleClaim;
     dn_Service := None |}.

Definition specWithPorts (ports : GoMap Z) : DataNodeSpec :=
  {| dn_Replicas := 3;
     dn_Image := "apache/iotdb:latest";
     dn_Envs := None;
     dn_Limits := {[ "cpu" := "8000m"; "memory" := "16Gi" ]};
     dn_VolumeClaimTemplate := sampleClaim;
     dn_Service := Some {| dns_Type := "NodePort"; dns_Ports := ports |} |}.

(** The sample specification before the user raised the replicas to 3. *)
Definition smallerSpec : DataNodeSpec :=
  {| dn_Replicas := 2;
     dn_Image := dn_Image sampleSpec;
     dn_Envs := dn_Envs sampleSpec;
     dn_Limits := dn_Limits sampleSpec;
     dn_VolumeClaimTemplate := dn_VolumeClaimTemplate sampleSpec;
     dn_Service := dn_Service sampleSpec |}.

(** The live service after the API server gave it a cluster IP. *)
Definition withClusterIP (s : Service) (ip : string) (rv : nat) : Service :=
  {| svc_Meta := withVersion (svc_Meta s) rv;
     svc_Spec := {| ss_Type := ss_Type (svc_Spec s);
                    ss_ClusterIP := ip;
                    ss_Ports := ss_Ports (svc_Spec s);
                    ss_Selector := ss_Selector (svc_Spec s) |} |}.

Definition clusterOfService (s : Service) : Cluster :=
  {| cl_DataNodes := ∅;
     cl_Services := {[ serviceKey s := s ]};
     cl_StatefulSets := ∅;
     cl_Version := om_ResourceVersion (svc_Meta s) |}.

(** The user edits the DataNode. *)
Definition editDataNode (dn : DataNode) (cl : Cluster) : Cluster :=
  {| cl_DataNodes := <[ (dn_Namespace dn, dn_Name dn) := dn ]> (cl_DataNodes cl);
     cl_Services := cl_Services cl;
     cl_StatefulSets := cl_StatefulSets cl;
     cl_Version := cl_Version cl |}.

(** Another client annotates the stored workload. *)
Definition annotate (key : NamespacedName) (name value : string) (cl : Cluster)
  : Cluster :=
  match cl_StatefulSets cl !! key with
  | None => cl
  | Some live =>
      let meta := st_Meta live in
      storeStatefulSet
        {| st_Meta := {| om_Name := om_Name meta;
                         om_Namespace := om_Namespace meta;
                         om_Labels := om_Labels meta;
                         om_Annotations := <[ name := value ]> (om_Annotations meta);
                         om_OwnerReferences := om_OwnerReferences meta;
                         om_ResourceVersion := om_ResourceVersion meta |};
           st_Spec := st_Spec live |} cl
  end.

Definition annotateBefore (call : nat) (key : NamespacedName)
    (name value : string) : nat → Cluster → Cluster :=
  λ n cl, if bool_decide (n = call) then annotate key name value cl else cl.

Definition emptyCluster : Cluster :=
  {| cl_DataNodes := ∅; cl_Services := ∅; cl_StatefulSets := ∅; cl_Version := 0 |}.

(** A cluster that holds one DataNode and nothing else, and refuses every
    write. *)
Definition readOnly (dn : DataNode) (c : Call) : unit → Reply c * unit :=
  match c as c0 return unit → Reply c0 * unit with
  | GetDataNode _ => λ u, (Found dn, u)
  | GetService _ => λ u, (GetFailed NotFound, u)
  | GetStatefulSet _ => λ u, (GetFailed NotFound, u)
  | CreateService _ | UpdateService _
  | CreateStatefulSet _ | UpdateStatefulSet _ =>
      λ u, (Some (OtherError "forbidden"), u)
  end.

(** A DataNode that declares more replicas than 32 bits hold, limits for
    three resources, and an exposure of four ports. *)
Definition wideSpec : DataNodeSpec :=
  {| dn_Replicas := 2 ^ 32 + 3;
     dn_Image := "apache/iotdb:latest";
     dn_Envs := Some twoEnvs;
     dn_Limits := {[ "cpu" := "8000m"; "ephemeral-storage" := "1Gi" ]};
     dn_VolumeClaimTemplate := sampleClaim;
     dn_Service :=
       Some {| dns_Type := "NodePort";
               dns_Ports := [ ("dn_rpc_port", 30001); ("dn_internal_port", 30002);
                              ("rest_service_port", 30003);
                              ("dn_metric_prometheus_reporter_port", 30004) ] |} |}.

(** ** What the specification says of the environment list *)

(** The entry of the user's map, with a registry name's value replaced. *)
Definition userEnv (e : string * string) : EnvVar :=
  {| ev_Name := e.1; ev_Value := rewriteEnv e.1 e.2; ev_ValueFrom := None |}.

(** The three entries the controller adds: identity, seed address,
    internal address. *)
Definition injectedEnv `{Package} (dataNode : DataNode) : list EnvVar :=
  [ {| ev_Name := "POD_NAME"; ev_Value := "";
       ev_ValueFrom := Some "metadata.name" |};
    {| ev_Name := "dn_seed_config_node";
       ev_Value := ConfigNodeName +:+ "-0." +:+ ConfigNodeName +:+ "-headless."
                   +:+ dn_Namespace dataNode +:+ ".svc.cluster.local:10710";
       ev_ValueFrom := None |};
    {| ev_Name := "dn_internal_address";
       ev_Value := "$(POD_NAME)." +:+ DataNodeName +:+ "-headless."
                   +:+ dn_Namespace dataNode +:+ ".svc.cluster.local";
       ev_ValueFrom := None |} ].

(** ** What the specification says of the exposure ports *)

(** The canonical port of a name the exposure service honours. *)
Definition exposed (key : string) : option Z :=
  if bool_decide (key ∈ ExposedNames) then registryPort key else None.

(** The port list of the exposure service for the entries of the user's
    map, taken in the given order: entries under other names are dropped. *)
Definition exposedPorts `{Package} (entries : GoMap Z) : list ServicePort :=
  omap (λ e, (λ p, exposedPort e.1 p e.2) <$> exposed e.1) entries.

(** ** What the builders yield when stamping succeeds *)

(** The metadata of a fresh object after the controller reference to
    [owner] was set on it. *)
Definition stamped (gvk : GroupVersionKind) (owner : DataNode) (m : ObjectMeta)
  : ObjectMeta :=
  {| om_Name := om_Name m;
     om_Namespace := om_Namespace m;
     om_Labels := om_Labels m;
     om_Annotations := om_Annotations m;
     om_OwnerReferences := [controllerRef gvk owner];
     om_ResourceVersion := om_ResourceVersion m |}.

(** The two services, for a scheme that knows the DataNode kind. *)
Definition headlessService `{Package} (gvk : GroupVersionKind) (dn : DataNode)
  : Service :=
  {| svc_Meta := stamped gvk dn (serviceMeta (DataNodeName +:+ "-headless") dn);
     svc_Spec := {| ss_Type := ""; ss_ClusterIP := "None";
                    ss_Ports := headlessPorts; ss_Selector := appLabels |} |}.

Definition exposureService `{Package} (gvk : GroupVersionKind) (dn : DataNode)
    (type : string) (ports : list ServicePort) : Service :=
  {| svc_Meta := stamped gvk dn (serviceMeta DataNodeName dn);
     svc_Spec := {| ss_Type := type; ss_ClusterIP := "";
                    ss_Ports := ports; ss_Selector := appLabels |} |}.

(** The live configuration of a service and the desired one agree. *)
Definition sameServiceSpec (live desired : ServiceSpec) : Prop :=
  ss_Type live = ss_Type desired
  ∧ ss_ClusterIP live = ss_ClusterIP desired
  ∧ ss_Ports live = ss_Ports desired
  ∧ ss_Selector live = ss_Selector desired.

(** ** What one run of the retried closure does *)

(** The calls of one run of [ensureStatefulSet], with their replies, and
    the result of the run: a failed fetch, a create after a fetch that
    found nothing, nothing after a fetch of an equal Spec, or an update
    that submits the built object under the resource version just
    fetched. *)
Inductive Attempt `{Package} (r : DataNodeReconciler) (dn : DataNode)
    (order : RangeOrder string) : list Event → Go (option Error) → Prop :=
| attempt_fetch_failed err :
    IsNotFound err = false →
    Attempt r dn order
      [ (GetStatefulSet (dn_Namespace dn, dn_Name dn),
         GotStatefulSet (GetFailed err)) ]
      (Returned (Some err))
| attempt_created err built e :
    IsNotFound err = true →
    constructStateFulSetForDataNode r dn order = Returned (Some built) →
    Attempt r dn order
      [ (GetStatefulSet (dn_Namespace dn, dn_Name dn),
         GotStatefulSet (GetFailed err));
        (CreateStatefulSet built, Wrote e) ]
      (Returned e)
| attempt_unchanged current built :
    constructStateFulSetForDataNode r dn order = Returned (Some built) →
    st_Spec current = st_Spec built →
    Attempt r dn order
      [ (GetStatefulSet (dn_Namespace dn, dn_Name dn),
         GotStatefulSet (Found current)) ]
      (Returned None)
| attempt_updated current built e :
    constructStateFulSetForDataNode r dn order = Returned (Some built) →
    st_Spec current ≠ st_Spec built →
    Attempt r dn order
      [ (GetStatefulSet (dn_Namespace dn, dn_Name dn),
         GotStatefulSet (Found current));
        (UpdateStatefulSet
           (statefulSetWithVersion built (om_ResourceVersion (st_Meta current))),
         Wrote e) ]
      (Returned e)
| attempt_panicked res :
    (∀ built, constructStateFulSetForDataNode r dn order ≠ Returned (Some built)) →
    (∀ err, res = GetFailed err → IsNotFound err = true) →
    Attempt r dn order
      [ (GetStatefulSet (dn_Namespace dn, dn_Name dn), GotStatefulSet res) ]
      Panicked.

(** ** What a pass may do *)

(** The error with which the answer to a call on a service ends the pass:
    a failed write, or a failed read other than NotFound. *)
Definition serviceFailure (e : Event) : option Error :=
  match e with
  | (GetService _, GotService (GetFailed err)) =>
      if IsNotFound err then None else Some err
  | (CreateService _, Wrote (Some err)) => Some err
  | (UpdateService _, Wrote (Some err)) => Some err
  | _ => None
  end.

(** The objects a pass may touch, and how, when it was requested for [req]
    and has fetched [dn]. *)
Definition mayTouch `{Package} (req : NamespacedName) (dn : DataNode)
  : list (Verb * Kind * NamespacedName) :=
  let ns := dn_Namespace dn in
  [ (VGet, KDataNode, req);
    (VGet, KService, (ns, DataNodeName +:+ "-headless"));
    (VCreate, KService, (ns, DataNodeName +:+ "-headless"));
    (VUpdate, KService, (ns, DataNodeName +:+ "-headless"));
    (VGet, KService, (ns, DataNodeName));
    (VCreate, KService, (ns, DataNodeName));
    (VUpdate, KService, (ns, DataNodeName));
    (VGet, KStatefulSet, (ns, dn_Name dn));
    (VCreate, KStatefulSet, (ns, DataNodeName));
    (VUpdate, KStatefulSet, (ns, DataNodeName)) ].

(** Whatever the replies, the calls of a computation cost at most n in
    all, where a call c costs [cost c]. *)
Fixpoint Costs {A} (cost : Call → nat) (n : nat) (p : Prog A) : Prop :=
  match p with
  | Ret _ => True
  | Do c k => (cost c ≤ n)%nat ∧ ∀ rep, Costs cost (n - cost c) (k rep)
  end.

Definition writeCost (c : Call) : nat := if isWrite c then 1%nat else 0%nat.

(** Whatever the replies, the result of a computation satisfies P. *)
Fixpoint AllResults {A} (P : A → Prop) (p : Prog A) : Prop :=
  match p with
  | Ret a => P a
  | Do c k => ∀ rep, AllResults P (k rep)
  end.



(** * Properties *)

Section Builder.

Context `{Package}.

Implicit Types (r : DataNodeReconciler) (dn : DataNode).

(** *** Owner references *)

Lemma own_namespace_passes (ns : string) :
  negb (ns =? "")%string && negb (ns =? ns)%string = false.
Proof. rewrite String.eqb_refl. apply andb_false_r. Qed.

Lemma SetControllerReference_fresh owner m scheme gvk :
  om_Namespace m = dn_Namespace owner →
  om_OwnerReferences m = [] →
  scheme_DataNode scheme = Some gvk →
  SetControllerReference owner m scheme = inr (stamped gvk owner m).
Proof.
  intros Hns Hrefs Hgvk. unfold SetControllerReference, stamped.
  rewrite Hns, own_namespace_passes, Hgvk, Hrefs. reflexivity.
Qed.

Lemma SetControllerReference_unregistered owner m scheme :
  om_Namespace m = dn_Namespace owner →
  scheme_DataNode scheme = None →
  SetControllerReference owner m scheme = inl SchemeError.
Proof.
  intros Hns Hgvk. unfold SetControllerReference.
  rewrite Hns, own_namespace_passes, Hgvk. reflexivity.
Qed.

(** Stamping depends on the scheme only: the objects the controller builds
    are fresh and live in the owner's namespace. *)
Lemma stamp_service_meta dn name scheme :
  SetControllerReference dn (serviceMeta name dn) scheme =
  match scheme_DataNode scheme with
  | Some gvk => inr (stamped gvk dn (serviceMeta name dn))
  | None => inl SchemeError
  end.
Proof.
  destruct (scheme_DataNode scheme) eqn:E.
  - by apply SetControllerReference_fresh.
  - by apply SetControllerReference_unregistered.
Qed.

Lemma constructPVCForDataNode_eq r dn :
  constructPVCForDataNode r dn =
  match scheme_DataNode (r_Scheme r) with
  | Some gvk =>
      Some {| pvc_Meta := stamped gvk dn (serviceMeta DataNodeName dn);
              pvc_Spec := dn_VolumeClaimTemplate (dn_Spec dn) |}
  | None => None
  end.
Proof.
  unfold constructPVCForDataNode.
  change (SetControllerReference dn _ (r_Scheme r))
    with (SetControllerReference dn (serviceMeta DataNodeName dn) (r_Scheme r)).
  rewrite stamp_service_meta. by destruct (scheme_DataNode (r_Scheme r)).
Qed.

(** *** The environment list *)

Lemma rangeEnvs_fill entries : ∀ pre rest,
  rangeEnvs entries (length pre)
    (pre ++ replicate (length entries) zeroEnvVar ++ rest)
  = pre ++ (userEnv <$> entries) ++ rest.
Proof.
  induction entries as [|[key value] entries IH]; intros pre rest; [done|].
  cbn [rangeEnvs length replicate].
  replace (length pre) with (length pre + 0)%nat at 2 by lia.
  rewrite insert_app_r. cbn [app insert list_insert].
  specialize (IH (pre ++ [userEnv (key, value)]) rest).
  rewrite length_app, Nat.add_comm in IH. cbn [length Nat.add] in IH.
  rewrite <- !(assoc_L (++)) in IH. exact IH.
Qed.

Lemma envVarsFor_eq dn order :
  valid_order order →
  envVarsFor dn order =
  match dn_Envs (dn_Spec dn) with
  | None => injectedEnv dn
  | Some envs => (userEnv <$> order envs) ++ injectedEnv dn
  end.
Proof.
  intros Hord. unfold envVarsFor.
  destruct (dn_Envs (dn_Spec dn)) as [envs|]; [|reflexivity].
  assert (Hlen : length (order envs) = length envs)
    by (apply Permutation_length, Hord).
  rewrite <- Hlen, replicate_add.
  pose proof (rangeEnvs_fill (order envs) [] (replicate 3 zeroEnvVar)) as Hfill.
  cbn [length app] in Hfill. rewrite Hfill.
  set (user := userEnv <$> order envs).
  assert (Hu : length (order envs) = length user)
    by (subst user; by rewrite length_fmap).
  rewrite Hu.
  replace (length user) with (length user + 0)%nat at 3 by lia.
  rewrite !insert_app_r. reflexivity.
Qed.

Lemma constructStateFulSetForDataNode_env r dn order sts :
  constructStateFulSetForDataNode r dn order = Returned (Some sts) →
  ∃ c, pt_Containers (sts_Template (st_Spec sts)) = [c]
       ∧ c_Env c = envVarsFor dn order.
Proof.
  unfold constructStateFulSetForDataNode.
  destruct (constructPVCForDataNode r dn); [|done].
  destruct (SetControllerReference _ _ _); [done|].
  intros [= <-]. eexists. split; reflexivity.
Qed.

(** C5 (as amended).  The environment of the built workload's container
    is the user's entries in the order in which this run of the [range]
    loop yielded them (some permutation of the map's entries, values of
    registry names replaced), followed by the three injected entries in
    the fixed order identity, seed address, internal address; for an
    absent map it is exactly the three injected entries. *)
Theorem env_list_is_ranged_entries_then_injected r dn order sts :
  valid_order order →
  constructStateFulSetForDataNode r dn order = Returned (Some sts) →
  ∃ c, pt_Containers (sts_Template (st_Spec sts)) = [c] ∧
       match dn_Envs (dn_Spec dn) with
       | None => c_Env c = injectedEnv dn
       | Some envs =>
           c_Env c = (userEnv <$> order envs) ++ injectedEnv dn
           ∧ order envs ≡ₚ envs
       end.
Proof.
  intros Hord Hsts.
  destruct (constructStateFulSetForDataNode_env _ _ _ _ Hsts) as (c & Hc & Henv).
  exists c. split; [done|].
  rewrite Henv, (envVarsFor_eq _ _ Hord).
  destruct (dn_Envs (dn_Spec dn)); [split; [done|apply Hord]|done].
Qed.

(** *** The services *)

Lemma rangePorts_step key value rest i ports :
  rangePorts ((key, value) :: rest) i ports =
  match exposed key with
  | Some p => rangePorts rest (S i) (<[ i := exposedPort key p value ]> ports)
  | None => rangePorts rest i ports
  end.
Proof.
  cbn [rangePorts].
  destruct (String.eqb_spec key "dn_metric_prometheus_reporter_port") as [->|N1];
    [reflexivity|].
  destruct (String.eqb_spec key "rest_service_port") as [->|N2]; [reflexivity|].
  destruct (String.eqb_spec key "dn_rpc_port") as [->|N3]; [reflexivity|].
  unfold exposed. rewrite bool_decide_eq_false_2; [reflexivity|].
  unfold ExposedNames. rewrite !elem_of_cons, elem_of_nil. tauto.
Qed.

Lemma rangePorts_fill entries : ∀ pre n,
  (length entries ≤ n)%nat →
  rangePorts entries (length pre) (pre ++ replicate n zeroServicePort)
  = ((length pre + length (exposedPorts entries))%nat,
     pre ++ exposedPorts entries
         ++ replicate (n - length (exposedPorts entries)) zeroServicePort).
Proof.
  induction entries as [|[key value] entries IH]; intros pre n Hn.
  - cbn. by rewrite Nat.add_0_r, Nat.sub_0_r.
  - rewrite rangePorts_step. unfold exposedPorts. cbn [omap list_omap fst snd].
    fold (exposedPorts entries). cbn [length] in Hn.
    destruct (exposed key) as [p|]; cbn [fmap option_fmap option_map].
    + destruct n as [|n]; [lia|]. cbn [replicate].
      replace (length pre) with (length pre + 0)%nat at 2 by lia.
      rewrite insert_app_r. cbn [insert list_insert].
      specialize (IH (pre ++ [exposedPort key p value]) n ltac:(lia)).
      rewrite length_app, <- !(assoc_L (++)) in IH. cbn [length app] in IH.
      rewrite <- Nat.add_1_r, IH. cbn [length app]. f_equal. lia.
    + apply IH. lia.
Qed.

Lemma constructServiceForDataNode_eq r dn order gvk :
  scheme_DataNode (r_Scheme r) = Some gvk →
  valid_order order →
  constructServiceForDataNode r dn order =
  inr (headlessService gvk dn ::
       match dn_Service (dn_Spec dn) with
       | Some svc =>
           match exposedPorts (order (dns_Ports svc)) with
           | [] => []
           | ports => [exposureService gvk dn (dns_Type svc) ports]
           end
       | None => []
       end).
Proof.
  intros Hgvk Hord. unfold constructServiceForDataNode.
  rewrite !stamp_service_meta, Hgvk.
  destruct (dn_Service (dn_Spec dn)) as [svc|]; [|reflexivity].
  assert (Hlen : length (order (dns_Ports svc)) = length (dns_Ports svc))
    by apply Permutation_length, Hord.
  case_bool_decide as Hpos.
  - pose proof (rangePorts_fill (order (dns_Ports svc)) []
                  (length (dns_Ports svc)) ltac:(lia)) as Hfill.
    cbn [length app Nat.add] in Hfill. rewrite Hfill.
    case_bool_decide as Hi.
    + rewrite take_app_length.
      destruct (exposedPorts (order (dns_Ports svc))); [cbn in Hi; lia|done].
    + destruct (exposedPorts (order (dns_Ports svc))); [done|cbn in Hi; lia].
  - destruct (order (dns_Ports svc)); [done|]. cbn [length] in Hlen. lia.
Qed.

Lemma constructServiceForDataNode_unregistered r dn order :
  scheme_DataNode (r_Scheme r) = None →
  constructServiceForDataNode r dn order = inl SchemeError.
Proof.
  intros Hgvk. unfold constructServiceForDataNode.
  by rewrite stamp_service_meta, Hgvk.
Qed.

Lemma elem_of_exposedPorts port entries :
  port ∈ exposedPorts entries ↔
  ∃ key value p, (key, value) ∈ entries ∧ key ∈ ExposedNames
                 ∧ registryPort key = Some p ∧ port = exposedPort key p value.
Proof.
  unfold exposedPorts. rewrite list_elem_of_omap. split.
  - intros ([key value] & Hin & Hsome). cbn [fst snd] in Hsome.
    unfold exposed in Hsome. case_bool_decide; [|done].
    destruct (registryPort key) as [p|] eqn:Hp; [|done].
    injection Hsome as <-. by exists key, value, p.
  - intros (key & value & p & Hin & Hkey & Hp & ->).
    exists (key, value). split; [done|]. cbn [fst snd]. unfold exposed.
    by rewrite bool_decide_eq_true_2, Hp.
Qed.

Lemma SetControllerReference_names owner m scheme m' :
  SetControllerReference owner m scheme = inr m' →
  om_Name m' = om_Name m ∧ om_Namespace m' = om_Namespace m.
Proof.
  unfold SetControllerReference.
  destruct (_ && _); [done|].
  destruct (scheme_DataNode scheme); [|done].
  destruct (List.find _ _); [case_bool_decide|]; intros [= <-]; done.
Qed.

(** Whatever the order of the loop, the result starts with the headless
    service and has at most one more service, the one named by the
    constant. *)
Lemma constructServiceForDataNode_inv r dn order services :
  constructServiceForDataNode r dn order = inr services →
  ∃ headless rest,
    services = headless :: rest
    ∧ serviceKey headless = (dn_Namespace dn, DataNodeName +:+ "-headless")
    ∧ svc_Spec headless = {| ss_Type := ""; ss_ClusterIP := "None";
                             ss_Ports := headlessPorts;
                             ss_Selector := appLabels |}
    ∧ (length rest ≤ 1)%nat
    ∧ Forall (λ s, serviceKey s = (dn_Namespace dn, DataNodeName)) rest.
Proof.
  unfold constructServiceForDataNode.
  destruct (SetControllerReference dn (serviceMeta (DataNodeName +:+ "-headless") dn) _)
    as [|hmeta] eqn:Hh; [done|].
  apply SetControllerReference_names in Hh as [Hn Hns].
  assert (Hkey : ∀ spec, serviceKey {| svc_Meta := hmeta; svc_Spec := spec |}
                         = (dn_Namespace dn, DataNodeName +:+ "-headless")).
  { intros spec. unfold serviceKey. cbn [svc_Meta]. by rewrite Hn, Hns. }
  assert (Hnone : ∀ spec, ∃ headless rest,
            [ {| svc_Meta := hmeta; svc_Spec := spec |} ] = headless :: rest
            ∧ serviceKey headless = (dn_Namespace dn, DataNodeName +:+ "-headless")
            ∧ svc_Spec headless = spec
            ∧ (length rest ≤ 1)%nat
            ∧ Forall (λ s, serviceKey s = (dn_Namespace dn, DataNodeName)) rest).
  { intros spec. eexists _, []. repeat split; [apply Hkey|cbn; lia|constructor]. }
  destruct (dn_Service (dn_Spec dn)) as [svc|]; [|intros [= <-]; apply Hnone].
  case_bool_decide; [|intros [= <-]; apply Hnone].
  destruct (rangePorts _ _ _) as [i ports].
  case_bool_decide; [|intros [= <-]; apply Hnone].
  destruct (SetControllerReference dn (serviceMeta DataNodeName dn) _)
    as [|nmeta] eqn:Hx; [done|].
  apply SetControllerReference_names in Hx as [Hn' Hns'].
  intros [= <-]. eexists _, [_]. repeat split; [apply Hkey|cbn; lia|].
  constructor; [|constructor]. unfold serviceKey. cbn [svc_Meta].
  by rewrite Hn', Hns'.
Qed.

Lemma constructStateFulSetForDataNode_inv r dn order sts :
  constructStateFulSetForDataNode r dn order = Returned (Some sts) →
  ∃ gvk, scheme_DataNode (r_Scheme r) = Some gvk
    ∧ st_Meta sts = stamped gvk dn (serviceMeta DataNodeName dn)
    ∧ sts_VolumeClaimTemplates (st_Spec sts) =
        [ {| pvc_Meta := stamped gvk dn (serviceMeta DataNodeName dn);
             pvc_Spec := dn_VolumeClaimTemplate (dn_Spec dn) |} ].
Proof.
  unfold constructStateFulSetForDataNode. rewrite constructPVCForDataNode_eq.
  change (SetControllerReference dn _ (r_Scheme r))
    with (SetControllerReference dn (serviceMeta DataNodeName dn) (r_Scheme r)).
  rewrite stamp_service_meta.
  destruct (scheme_DataNode (r_Scheme r)) as [gvk|]; [|done].
  intros [= <-]. by exists gvk.
Qed.

Lemma rewriteEnv_registry key value :
  rewriteEnv key value =
  match registryPort key with Some p => pretty p | None => value end.
Proof.
  unfold rewriteEnv.
  repeat (match goal with
          | |- context [String.eqb key ?k] =>
              destruct (String.eqb_spec key k) as [->|?]; [reflexivity|]
          end).
  unfold registryPort, PortRegistry. cbn [List.find fst snd].
  repeat (match goal with
          | |- context [String.eqb ?k key] =>
              destruct (String.eqb_spec k key) as [?|?]; [congruence|]
          end).
  reflexivity.
Qed.

Lemma injected_names_not_in_registry dn e :
  e ∈ injectedEnv dn → registryPort (ev_Name e) = None.
Proof.
  unfold injectedEnv. rewrite !elem_of_cons, elem_of_nil.
  intros [->|[->|[->|[]]]]; reflexivity.
Qed.

(** C2 (as amended).  In the built workload, every environment entry
    under one of the seven registry names carries the registry's number,
    whatever value the user gave.  In the exposure service, every entry of
    the user's port map under one of the three names the exposure service
    honours (metrics reporter, REST, RPC) becomes a port whose service port
    and target port are the registry's number and whose node port is the
    user's value; the service has no other ports, so an entry under any
    other name, one of the four other registry names included, is
    dropped. *)
Theorem registry_names_get_canonical_ports r dn envOrder portsOrder :
  valid_order envOrder →
  valid_order portsOrder →
  (∀ sts, constructStateFulSetForDataNode r dn envOrder = Returned (Some sts) →
     ∃ c, pt_Containers (sts_Template (st_Spec sts)) = [c]
       ∧ (∀ envs key value p,
            dn_Envs (dn_Spec dn) = Some envs → (key, value) ∈ envs →
            registryPort key = Some p →
            {| ev_Name := key; ev_Value := pretty p; ev_ValueFrom := None |}
              ∈ c_Env c)
       ∧ (∀ e p, e ∈ c_Env c → registryPort (ev_Name e) = Some p →
                 ev_Value e = pretty p))
  ∧
  (∀ services svc,
     constructServiceForDataNode r dn portsOrder = inr services →
     dn_Service (dn_Spec dn) = Some svc →
     (∀ key value p,
        (key, value) ∈ dns_Ports svc → key ∈ ExposedNames →
        registryPort key = Some p →
        ∃ exposure, services !! 1%nat = Some exposure
          ∧ {| sp_Name := ToKebabCase key; sp_Port := p; sp_NodePort := value;
               sp_TargetPort := IntVal p |} ∈ ss_Ports (svc_Spec exposure))
     ∧ (∀ exposure port,
          services !! 1%nat = Some exposure →
          port ∈ ss_Ports (svc_Spec exposure) →
          ∃ key value,
            (key, value) ∈ dns_Ports svc ∧ key ∈ ExposedNames
            ∧ registryPort key = Some (sp_Port port)
            ∧ sp_TargetPort port = IntVal (sp_Port port)
            ∧ sp_NodePort port = value)).
Proof.
  intros Henv Hports. split.
  - intros sts Hsts.
    destruct (constructStateFulSetForDataNode_env _ _ _ _ Hsts) as (c & Hc & Hc_env).
    exists c. split; [done|]. rewrite Hc_env, (envVarsFor_eq _ _ Henv). split.
    + intros envs key value p -> Hin Hp.
      apply elem_of_app. left. apply list_elem_of_fmap.
      exists (key, value). split.
      * unfold userEnv. cbn [fst snd]. by rewrite rewriteEnv_registry, Hp.
      * by rewrite (Henv envs).
    + intros e p He Hp.
      assert (Hcases : (∃ kv, e = userEnv kv) ∨ e ∈ injectedEnv dn).
      { destruct (dn_Envs (dn_Spec dn)); [|by right].
        apply elem_of_app in He as [He|He]; [|by right].
        apply list_elem_of_fmap in He as (kv & -> & _). left. by exists kv. }
      destruct Hcases as [[[key value] ->]|Hinj].
      * cbn [userEnv ev_Name ev_Value fst snd] in *.
        by rewrite rewriteEnv_registry, Hp.
      * apply injected_names_not_in_registry in Hinj. congruence.
  - intros services svc Hsvcs Hsvc.
    destruct (scheme_DataNode (r_Scheme r)) as [gvk|] eqn:Hgvk;
      [|by rewrite constructServiceForDataNode_unregistered in Hsvcs].
    rewrite (constructServiceForDataNode_eq _ _ _ gvk Hgvk Hports), Hsvc in Hsvcs.
    injection Hsvcs as <-. split.
    + intros key value p Hin Hkey Hp.
      assert (Hel : exposedPort key p value ∈ exposedPorts (portsOrder (dns_Ports svc))).
      { apply elem_of_exposedPorts. exists key, value, p.
        by rewrite (Hports (dns_Ports svc)). }
      destruct (exposedPorts (portsOrder (dns_Ports svc))) as [|p0 ps] eqn:E;
        [by apply elem_of_nil in Hel|].
      eexists. split; [reflexivity|]. exact Hel.
    + intros exposure port Hex Hport.
      destruct (exposedPorts (portsOrder (dns_Ports svc))) as [|p0 ps] eqn:E;
        [done|].
      injection Hex as <-. cbn [exposureService svc_Spec ss_Ports] in Hport.
      rewrite <- E in Hport.
      apply elem_of_exposedPorts in Hport as (key & value & p & Hin & Hkey & Hp & ->).
      exists key, value. rewrite (Hports (dns_Ports svc)) in Hin. done.
Qed.

(** C3 (as amended).  When stamping succeeds, the result is the headless
    service, followed by one exposure service exactly when the exposure
    descriptor is present and has an entry under one of the three names
    the exposure service honours (metrics reporter, REST, RPC); the ports
    of that service are the honoured entries, all others dropped.  An
    entry under one of the four other registry names does not count. *)
Theorem services_are_headless_and_maybe_exposure r dn order gvk :
  scheme_DataNode (r_Scheme r) = Some gvk →
  valid_order order →
  ∃ headless rest,
    constructServiceForDataNode r dn order = inr (headless :: rest)
    ∧ om_Name (svc_Meta headless) = DataNodeName +:+ "-headless"
    ∧ ss_ClusterIP (svc_Spec headless) = "None"
    ∧ (length rest ≤ 1)%nat
    ∧ (rest ≠ [] ↔
       ∃ svc key value,
         dn_Service (dn_Spec dn) = Some svc ∧ (key, value) ∈ dns_Ports svc
         ∧ key ∈ ExposedNames)
    ∧ (∀ exposure svc,
         exposure ∈ rest → dn_Service (dn_Spec dn) = Some svc →
         om_Name (svc_Meta exposure) = DataNodeName
         ∧ ss_Type (svc_Spec exposure) = dns_Type svc
         ∧ ss_Ports (svc_Spec exposure) ≡ₚ exposedPorts (dns_Ports svc)).
Proof.
  intros Hgvk Hord. rewrite (constructServiceForDataNode_eq _ _ _ gvk Hgvk Hord).
  eexists _, _. split; [reflexivity|]. split; [reflexivity|]. split; [reflexivity|].
  destruct (dn_Service (dn_Spec dn)) as [svc|].
  - assert (Hperm : exposedPorts (order (dns_Ports svc)) ≡ₚ exposedPorts (dns_Ports svc)).
    { unfold exposedPorts. by rewrite (Hord (dns_Ports svc)). }
    destruct (exposedPorts (order (dns_Ports svc))) as [|p0 ps] eqn:E.
    + split; [cbn; lia|]. split.
      * split; [done|]. intros (svc' & key & value & [= <-] & Hin & Hkey).
        assert (Hp : ∃ p, registryPort key = Some p).
        { unfold ExposedNames in Hkey. rewrite !elem_of_cons, elem_of_nil in Hkey.
          destruct Hkey as [->|[->|[->|[]]]]; eexists; reflexivity. }
        destruct Hp as [p Hp].
        assert (Hel : exposedPort key p value ∈ exposedPorts (dns_Ports svc)).
        { apply elem_of_exposedPorts. by exists key, value, p. }
        rewrite <- Hperm in Hel. by apply elem_of_nil in Hel.
      * intros exposure svc' Hin. by apply elem_of_nil in Hin.
    + split; [cbn; lia|]. split.
      * split; [|done]. intros _.
        assert (Hel : p0 ∈ exposedPorts (dns_Ports svc)).
        { rewrite <- Hperm. apply elem_of_cons. by left. }
        apply elem_of_exposedPorts in Hel as (key & value & p & Hin & Hkey & _).
        by exists svc, key, value.
      * intros exposure svc' Hin [= <-].
        apply list_elem_of_singleton in Hin as ->. done.
  - split; [cbn; lia|]. split.
    + split; [done|]. by intros (svc & key & value & [=] & _).
    + intros exposure svc Hin. by apply elem_of_nil in Hin.
Qed.

(** C4 (the code at any input).  The headless service has seven ports.
    The entry for the data-exchange port has service port 10740, the
    registry's number, but its target port is 10750, the number of the
    schema-region consensus port. *)
Theorem headless_exchange_port_targets_10750 r dn order services :
  constructServiceForDataNode r dn order = inr services →
  ∃ headless,
    services !! 0%nat = Some headless
    ∧ ss_ClusterIP (svc_Spec headless) = "None"
    ∧ length (ss_Ports (svc_Spec headless)) = 7%nat
    ∧ ss_Ports (svc_Spec headless) !! 1%nat =
        Some {| sp_Name := "dn-mpp-data-exchange-port"; sp_Port := 10740;
                sp_NodePort := 0; sp_TargetPort := IntVal 10750 |}
    ∧ registryPort "dn_mpp_data_exchange_port" = Some 10740
    ∧ registryPort "dn_schema_region_consensus_port" = Some 10750.
Proof.
  intros Hsvcs.
  apply constructServiceForDataNode_inv in Hsvcs
    as (headless & rest & -> & _ & Hspec & _).
  exists headless. rewrite Hspec. by repeat split.
Qed.

(** C10.  The names of the derived objects do not depend on the DataNode:
    the workload, its claim template and the exposure service are named by
    the constant [DataNodeName], the headless service by that constant
    followed by "-headless", and only the namespace is the DataNode's.
    Hence two DataNodes of one namespace derive objects of the same names. *)
Theorem derived_names_are_fixed r dn1 dn2 portsOrder1 portsOrder2
    envOrder1 envOrder2 :
  dn_Namespace dn1 = dn_Namespace dn2 →
  (∀ sts, constructStateFulSetForDataNode r dn1 envOrder1 = Returned (Some sts) →
     statefulSetKey sts = (dn_Namespace dn1, DataNodeName)
     ∧ Forall (λ pvc, om_Name (pvc_Meta pvc) = DataNodeName
                      ∧ om_Namespace (pvc_Meta pvc) = dn_Namespace dn1)
         (sts_VolumeClaimTemplates (st_Spec sts)))
  ∧ (∀ pvc, constructPVCForDataNode r dn1 = Some pvc →
       om_Name (pvc_Meta pvc) = DataNodeName
       ∧ om_Namespace (pvc_Meta pvc) = dn_Namespace dn1)
  ∧ (∀ services, constructServiceForDataNode r dn1 portsOrder1 = inr services →
       ∃ headless rest,
         services = headless :: rest
         ∧ serviceKey headless = (dn_Namespace dn1, DataNodeName +:+ "-headless")
         ∧ Forall (λ s, serviceKey s = (dn_Namespace dn1, DataNodeName)) rest)
  ∧ (∀ sts1 sts2,
       constructStateFulSetForDataNode r dn1 envOrder1 = Returned (Some sts1) →
       constructStateFulSetForDataNode r dn2 envOrder2 = Returned (Some sts2) →
       statefulSetKey sts1 = statefulSetKey sts2)
  ∧ (∀ services1 services2 i s1 s2,
       constructServiceForDataNode r dn1 portsOrder1 = inr services1 →
       constructServiceForDataNode r dn2 portsOrder2 = inr services2 →
       services1 !! i = Some s1 → services2 !! i = Some s2 →
       serviceKey s1 = serviceKey s2).
Proof.
  intros Hns.
  assert (Hsts : ∀ dn order sts,
            constructStateFulSetForDataNode r dn order = Returned (Some sts) →
            statefulSetKey sts = (dn_Namespace dn, DataNodeName)
            ∧ Forall (λ pvc, om_Name (pvc_Meta pvc) = DataNodeName
                             ∧ om_Namespace (pvc_Meta pvc) = dn_Namespace dn)
                (sts_VolumeClaimTemplates (st_Spec sts))).
  { intros dn order sts Hb.
    apply constructStateFulSetForDataNode_inv in Hb as (gvk & _ & Hm & Hv).
    unfold statefulSetKey. rewrite Hm, Hv. split; [done|].
    constructor; [done|constructor]. }
  assert (Hkeys : ∀ dn order services i s,
            constructServiceForDataNode r dn order = inr services →
            services !! i = Some s →
            serviceKey s =
              (dn_Namespace dn,
               match i with O => DataNodeName +:+ "-headless" | _ => DataNodeName end)).
  { intros dn order services i s Hb Hi.
    apply constructServiceForDataNode_inv in Hb
      as (headless & rest & -> & Hh & _ & _ & Hrest).
    destruct i as [|i]; cbn in Hi; [by injection Hi as <-|].
    rewrite Forall_forall in Hrest. apply Hrest.
    eapply list_elem_of_lookup_2, Hi. }
  split; [apply Hsts|]. split.
  { intros pvc. rewrite constructPVCForDataNode_eq.
    destruct (scheme_DataNode (r_Scheme r)); [|done]. by intros [= <-]. }
  split.
  { intros services Hb.
    apply constructServiceForDataNode_inv in Hb
      as (headless & rest & -> & Hh & _ & _ & Hrest).
    by exists headless, rest. }
  split.
  { intros sts1 sts2 H1 H2.
    apply Hsts in H1 as [-> _]. apply Hsts in H2 as [-> _]. by rewrite Hns. }
  intros services1 services2 i s1 s2 H1 H2 Hi1 Hi2.
  rewrite (Hkeys _ _ _ _ _ H1 Hi1), (Hkeys _ _ _ _ _ H2 Hi2). by rewrite Hns.
Qed.

End Builder.

(** ** Computations and their traces *)

Section Traces.

Context {W : Type} (serve : ∀ c : Call, W → Reply c * W).

Lemma trace_Ret {A} (a : A) w : trace serve (Ret a) w = [].
Proof. reflexivity. Qed.

Lemma result_Ret {A} (a : A) w : result serve (Ret a) w = a.
Proof. reflexivity. Qed.

Lemma final_Ret {A} (a : A) w : final serve (Ret a) w = w.
Proof. reflexivity. Qed.

Lemma run_Do {A} c (k : Reply c → Prog A) w :
  run serve (Do c k) w =
  let rep := (serve c w).1 in
  let next := run serve (k rep) (serve c w).2 in
  (next.1.1, next.1.2, (c, answer c rep) :: next.2).
Proof.
  cbn [run]. destruct (serve c w) as [rep w1]. cbn [fst snd].
  by destruct (run serve (k rep) w1) as [[a w2] t].
Qed.

Lemma trace_Do {A} c (k : Reply c → Prog A) w :
  trace serve (Do c k) w =
  (c, answer c (serve c w).1) :: trace serve (k (serve c w).1) (serve c w).2.
Proof. unfold trace. by rewrite run_Do. Qed.

Lemma result_Do {A} c (k : Reply c → Prog A) w :
  result serve (Do c k) w = result serve (k (serve c w).1) (serve c w).2.
Proof. unfold result. by rewrite run_Do. Qed.

Lemma final_Do {A} c (k : Reply c → Prog A) w :
  final serve (Do c k) w = final serve (k (serve c w).1) (serve c w).2.
Proof. unfold final. by rewrite run_Do. Qed.

Lemma run_bind {A B} (p : Prog A) (f : A → Prog B) w :
  run serve (bind p f) w =
  let first := run serve p w in
  let next := run serve (f first.1.1) first.1.2 in
  (next.1.1, next.1.2, first.2 ++ next.2).
Proof.
  revert w. induction p as [a|c k IH]; intros w; cbn [bind].
  - cbn. by destruct (run serve (f a) w) as [[b w2] t2].
  - rewrite !run_Do. cbn zeta. rewrite IH. reflexivity.
Qed.

Lemma trace_bind {A B} (p : Prog A) (f : A → Prog B) w :
  trace serve (bind p f) w =
  trace serve p w ++ trace serve (f (result serve p w)) (final serve p w).
Proof. unfold trace, result, final. by rewrite run_bind. Qed.

Lemma result_bind {A B} (p : Prog A) (f : A → Prog B) w :
  result serve (bind p f) w =
  result serve (f (result serve p w)) (final serve p w).
Proof. unfold trace, result, final. by rewrite run_bind. Qed.

Lemma final_bind {A B} (p : Prog A) (f : A → Prog B) w :
  final serve (bind p f) w =
  final serve (f (result serve p w)) (final serve p w).
Proof. unfold trace, result, final. by rewrite run_bind. Qed.

Lemma AllCalls_bind {A B} P (p : Prog A) (f : A → Prog B) :
  AllCalls P p → (∀ a, AllCalls P (f a)) → AllCalls P (bind p f).
Proof.
  intros Hp Hf. induction p as [a|c k IH]; cbn [bind AllCalls] in *; [done|].
  destruct Hp as [Hc Hk]. split; [done|]. intros rep. by apply IH.
Qed.

Lemma AllCalls_trace {A} P (p : Prog A) w :
  AllCalls P p → Forall P (calls (trace serve p w)).
Proof.
  revert w. induction p as [a|c k IH]; intros w Hp.
  - constructor.
  - destruct Hp as [Hc Hk]. rewrite trace_Do. unfold calls. cbn [fmap list_fmap].
    constructor; [done|]. by apply IH.
Qed.

End Traces.

(** ** The pass *)

Section Pass.

Context `{Package} {W : Type} (serve : ∀ c : Call, W → Reply c * W).

Implicit Types (r : DataNodeReconciler) (dn : DataNode).

Lemma constructServiceForDataNode_owned r dn order services :
  constructServiceForDataNode r dn order = inr services →
  ∃ gvk, scheme_DataNode (r_Scheme r) = Some gvk
    ∧ Forall (λ s, om_OwnerReferences (svc_Meta s) = [controllerRef gvk dn])
        services.
Proof.
  unfold constructServiceForDataNode. rewrite !stamp_service_meta.
  destruct (scheme_DataNode (r_Scheme r)) as [gvk|]; [|done].
  intros Hsvcs. exists gvk. split; [done|].
  destruct (dn_Service (dn_Spec dn)) as [svc|];
    [|injection Hsvcs as <-; by repeat constructor].
  case_bool_decide; [|injection Hsvcs as <-; by repeat constructor].
  destruct (rangePorts _ _ _) as [i ports].
  case_bool_decide; injection Hsvcs as <-; by repeat constructor.
Qed.

Lemma AllCalls_ensureService P service :
  P (GetService (om_Namespace (svc_Meta service), om_Name (svc_Meta service))) →
  P (CreateService service) →
  (∀ rv, P (UpdateService (serviceWithVersion service rv))) →
  AllCalls P (ensureService service).
Proof.
  intros Hget Hcreate Hupdate. unfold ensureService. cbn [AllCalls].
  split; [done|]. intros [existing|err].
  - destruct (negb _); cbn [AllCalls]; [|done]. split; [apply Hupdate|done].
  - destruct (IsNotFound err); cbn [AllCalls]; done.
Qed.

Lemma AllCalls_rangeServices P services :
  Forall (λ service,
    P (GetService (om_Namespace (svc_Meta service), om_Name (svc_Meta service)))
    ∧ P (CreateService service)
    ∧ ∀ rv, P (UpdateService (serviceWithVersion service rv))) services →
  AllCalls P (rangeServices services).
Proof.
  induction 1 as [|service rest (Hget & Hcreate & Hupdate) _ IH];
    cbn [rangeServices]; [done|].
  unfold mbind, Prog_bind. apply AllCalls_bind.
  - by apply AllCalls_ensureService.
  - intros [err|]; [done|apply IH].
Qed.

Lemma AllCalls_RetryOnConflict P steps fn : ∀ n lastErr,
  (∀ n, AllCalls P (fn n)) →
  AllCalls P (RetryOnConflict steps fn n lastErr).
Proof.
  induction steps as [|steps IH]; intros n lastErr Hfn; cbn [RetryOnConflict];
    [done|].
  unfold mbind, Prog_bind. apply AllCalls_bind; [apply Hfn|].
  intros [[err|]|]; [|done..]. destruct (IsConflict err); [by apply IH|done].
Qed.

Lemma AllCalls_ensureStatefulSet P r dn order :
  P (GetStatefulSet (dn_Namespace dn, dn_Name dn)) →
  (∀ built, constructStateFulSetForDataNode r dn order = Returned (Some built) →
            P (CreateStatefulSet built)
            ∧ ∀ rv, P (UpdateStatefulSet (statefulSetWithVersion built rv))) →
  AllCalls P (ensureStatefulSet r dn order).
Proof.
  intros Hget Hbuilt. unfold ensureStatefulSet. cbn [AllCalls].
  split; [done|].
  destruct (constructStateFulSetForDataNode r dn order) as [[built|]|].
  - destruct (Hbuilt built eq_refl) as [Hcreate Hupdate].
    intros [current|err].
    + destruct (negb _); cbn [AllCalls]; [|done]. split; [apply Hupdate|done].
    + destruct (IsNotFound err); cbn [AllCalls]; done.
  - intros [current|err]; [done|]. by destruct (IsNotFound err).
  - intros [current|err]; [done|]. by destruct (IsNotFound err).
Qed.

Lemma Forall_writes P t : Forall P (calls t) → Forall P (writes t).
Proof.
  unfold writes. rewrite !Forall_forall. intros Hall c Hc.
  apply list_elem_of_filter in Hc as [_ Hc]. by apply Hall.
Qed.

(** C8.  Every object a pass submits to the cluster, in a create or in
    an update, carries the controller reference to the DataNode the pass
    fetched, and so does the claim template embedded in the workload: the
    reference is on the object when it is submitted.  A pass that finds no
    DataNode writes nothing. *)
Theorem every_written_object_carries_owner r req portsOrder envOrder w :
  match (serve (GetDataNode req) w).1 with
  | Found dn =>
      Forall (λ c, ∃ gvk, scheme_DataNode (r_Scheme r) = Some gvk
                          ∧ callOwned (controllerRef gvk dn) c)
        (writes (trace serve (Reconcile r req portsOrder envOrder) w))
  | GetFailed _ =>
      writes (trace serve (Reconcile r req portsOrder envOrder) w) = []
  end.
Proof.
  unfold Reconcile. rewrite trace_Do.
  destruct ((serve (GetDataNode req) w).1) as [dn|err];
    [|by destruct (IsNotFound err)].
  destruct (constructServiceForDataNode r dn portsOrder) as [err|services] eqn:Hs;
    [by constructor|].
  apply constructServiceForDataNode_owned in Hs as (gvk & Hgvk & Hown).
  apply Forall_writes. unfold calls. cbn [fmap list_fmap fst].
  set (P := λ c, ∃ gvk, scheme_DataNode (r_Scheme r) = Some gvk
                        ∧ callOwned (controllerRef gvk dn) c).
  constructor; [by exists gvk|].
  apply AllCalls_trace. unfold mbind, Prog_bind. apply AllCalls_bind.
  - apply AllCalls_rangeServices. eapply Forall_impl; [exact Hown|].
    intros service Hrefs. subst P.
    repeat split; try intros rv; exists gvk; (split; [done|]);
      cbn [callOwned serviceWithVersion svc_Meta withVersion om_OwnerReferences];
      rewrite ?Hrefs; by try apply list_elem_of_singleton.
  - intros [err|]; [done|]. apply AllCalls_RetryOnConflict. intros n.
    apply AllCalls_ensureStatefulSet; [by exists gvk|].
    intros built Hb.
    apply constructStateFulSetForDataNode_inv in Hb as (gvk' & Hgvk' & Hm & Hv).
    subst P.
    split; [|intros rv]; exists gvk'; (split; [done|]);
      cbn [callOwned statefulSetWithVersion st_Meta st_Spec withVersion
           om_OwnerReferences];
      rewrite Hm, Hv; (split; [by apply list_elem_of_singleton|]);
      constructor; [by apply list_elem_of_singleton|constructor
                   |by apply list_elem_of_singleton|constructor].
Qed.

Lemma sameServiceSpec_eq live desired :
  sameServiceSpec live desired ↔ live = desired.
Proof.
  unfold sameServiceSpec. split; [|by intros ->].
  destruct live, desired. cbn. by intros (-> & -> & -> & ->).
Qed.

(** C6 (as amended).  When the desired service exists live, the pass
    compares the whole Spec of the live object with the desired Spec (type,
    cluster IP, port list and selector), and nothing of its metadata.  When
    they agree it goes on without a write; when any of the four differs it
    submits one update: the desired service, carrying the resource version
    of the live object. *)
Theorem service_updated_iff_spec_differs service existing w :
  (serve (GetService (serviceKey service)) w).1 = Found existing →
  (sameServiceSpec (svc_Spec existing) (svc_Spec service) →
     calls (trace serve (ensureService service) w)
       = [GetService (serviceKey service)]
     ∧ result serve (ensureService service) w = None)
  ∧ (¬ sameServiceSpec (svc_Spec existing) (svc_Spec service) →
     calls (trace serve (ensureService service) w)
       = [GetService (serviceKey service);
          UpdateService (serviceWithVersion service
                           (om_ResourceVersion (svc_Meta existing)))]).
Proof.
  intros Hget. unfold ensureService, DeepEqual.
  fold (serviceKey service). rewrite trace_Do, result_Do, Hget.
  rewrite sameServiceSpec_eq. split; intros Hspec.
  - by rewrite bool_decide_eq_true_2.
  - rewrite bool_decide_eq_false_2 by done. cbn [negb]. by rewrite trace_Do.
Qed.

(** C9 (the code at the failing input).  With a scheme that does not
    know the DataNode kind, the workload builder does not return: the claim
    builder has returned nil for the same reason, and the builder
    dereferences it. *)
Theorem workload_builder_panics_without_kind r dn order :
  scheme_DataNode (r_Scheme r) = None →
  constructPVCForDataNode r dn = None
  ∧ constructStateFulSetForDataNode r dn order = Panicked.
Proof.
  intros Hgvk.
  assert (Hpvc : constructPVCForDataNode r dn = None)
    by (by rewrite constructPVCForDataNode_eq, Hgvk).
  split; [done|]. unfold constructStateFulSetForDataNode. by rewrite Hpvc.
Qed.

(** X18.  In a pass the panic is out of reach: with a scheme that does
    not know the DataNode kind the service builder fails first, with the
    stamping error, and the pass ends with it after the one read, before
    any service or workload is read or written. *)
Lemma pass_without_kind_fails_before_workload r req portsOrder envOrder w dn :
  scheme_DataNode (r_Scheme r) = None →
  (serve (GetDataNode req) w).1 = Found dn →
  result serve (Reconcile r req portsOrder envOrder) w = Returned (Some SchemeError)
  ∧ calls (trace serve (Reconcile r req portsOrder envOrder) w) = [GetDataNode req].
Proof.
  intros Hgvk Hget. unfold Reconcile.
  rewrite result_Do, trace_Do, Hget.
  by rewrite constructServiceForDataNode_unregistered.
Qed.

(** *** The retried workload step *)

Lemma ensureStatefulSet_attempt r dn order w :
  Attempt r dn order (trace serve (ensureStatefulSet r dn order) w)
    (result serve (ensureStatefulSet r dn order) w).
Proof.
  unfold ensureStatefulSet. rewrite trace_Do, result_Do.
  cbn [answer].
  destruct ((serve (GetStatefulSet (dn_Namespace dn, dn_Name dn)) w).1)
    as [current|err].
  - destruct (constructStateFulSetForDataNode r dn order) as [[built|]|] eqn:Hb.
    + unfold DeepEqual. case_bool_decide as Hspec; cbn [negb].
      * rewrite trace_Ret, result_Ret. by eapply attempt_unchanged.
      * rewrite trace_Do, result_Do, trace_Ret, result_Ret.
        by eapply attempt_updated.
    + rewrite trace_Ret, result_Ret.
      apply attempt_panicked; [intros built; by rewrite Hb|done].
    + rewrite trace_Ret, result_Ret.
      apply attempt_panicked; [intros built; by rewrite Hb|done].
  - destruct (IsNotFound err) eqn:Hnf;
      [|rewrite trace_Ret, result_Ret; by apply attempt_fetch_failed].
    destruct (constructStateFulSetForDataNode r dn order) as [[built|]|] eqn:Hb.
    + rewrite trace_Do, result_Do, trace_Ret, result_Ret.
      by eapply attempt_created.
    + rewrite trace_Ret, result_Ret.
      apply attempt_panicked; [intros built; by rewrite Hb|by intros ? [= <-]].
    + rewrite trace_Ret, result_Ret.
      apply attempt_panicked; [intros built; by rewrite Hb|by intros ? [= <-]].
Qed.

Lemma IsConflict_true err : IsConflict err = true → err = Conflict.
Proof. by destruct err. Qed.

Lemma RetryOnConflict_runs steps (fn : nat → Prog (Go (option Error))) :
  ∀ n lastErr w,
  (0 < steps)%nat →
  ∃ runs : list (list Event * Go (option Error)),
    trace serve (RetryOnConflict steps fn n lastErr) w = concat runs.*1
    ∧ (1 ≤ length runs ≤ steps)%nat
    ∧ (∀ i t res, runs !! i = Some (t, res) →
         ∃ w', t = trace serve (fn (n + i)%nat) w'
               ∧ res = result serve (fn (n + i)%nat) w')
    ∧ (∀ i t res, runs !! i = Some (t, res) → (S i < length runs)%nat →
         res = Returned (Some Conflict))
    ∧ (∃ t, last runs
            = Some (t, result serve (RetryOnConflict steps fn n lastErr) w))
    ∧ (result serve (RetryOnConflict steps fn n lastErr) w
         = Returned (Some Conflict) → length runs = steps).
Proof.
  induction steps as [|steps IH]; intros n lastErr w Hpos; [lia|].
  cbn [RetryOnConflict]. unfold mbind, Prog_bind.
  rewrite trace_bind, result_bind.
  set (t1 := trace serve (fn n) w). set (res1 := result serve (fn n) w).
  set (w1 := final serve (fn n) w).
  assert (Hone : ∀ res, res = res1 →
            result serve (Ret res) w1 = res →
            (res = Returned (Some Conflict) → steps = 0%nat) →
            ∃ runs : list (list Event * Go (option Error)),
              t1 ++ [] = concat runs.*1
              ∧ (1 ≤ length runs ≤ S steps)%nat
              ∧ (∀ i t res', runs !! i = Some (t, res') →
                   ∃ w', t = trace serve (fn (n + i)%nat) w'
                         ∧ res' = result serve (fn (n + i)%nat) w')
              ∧ (∀ i t res', runs !! i = Some (t, res') → (S i < length runs)%nat →
                   res' = Returned (Some Conflict))
              ∧ (∃ t, last runs = Some (t, res))
              ∧ (res = Returned (Some Conflict) → length runs = S steps)).
  { intros res -> _ Hsteps. exists [(t1, res1)]. cbn [fmap list_fmap concat fst length].
    split; [done|]. split; [lia|]. split.
    - intros [|i] t res'; [|done]. intros [= <- <-]. exists w.
      by rewrite Nat.add_0_r.
    - split; [intros i t res' _ Hi; cbn in Hi; lia|].
      split; [by exists t1|]. intros Hc. by rewrite (Hsteps Hc). }
  destruct res1 as [[err|]|] eqn:Hres1.
  - destruct (IsConflict err) eqn:Hc.
    + apply IsConflict_true in Hc as ->.
      destruct steps as [|steps].
      * cbn [RetryOnConflict]. by apply Hone.
      * destruct (IH (S n) (Some Conflict) w1 ltac:(lia))
          as (runs & Htr & Hlen & Hruns & Hmid & (tl & Hlast) & Hbudget).
        exists ((t1, res1) :: runs). cbn [fmap list_fmap concat fst length].
        split; [by rewrite Htr|]. split; [lia|]. split.
        { intros [|i] t res'.
          - intros [= <- <-]. exists w. by rewrite Nat.add_0_r.
          - cbn [lookup list_lookup]. intros Hi.
            destruct (Hruns i t res' Hi) as (w' & -> & ->). exists w'.
            by replace (n + S i)%nat with (S n + i)%nat by lia. }
        split.
        { intros [|i] t res'.
          - intros [= <- <-] _. by subst res1.
          - cbn [lookup list_lookup]. intros Hi Hlt. apply (Hmid i t res' Hi). lia. }
        split.
        { exists tl. destruct runs as [|run runs]; [cbn in Hlen; lia|].
          by rewrite last_cons, Hlast. }
        intros Hc. by rewrite (Hbudget Hc).
    + apply Hone; [done..|]. intros [= ->]. done.
  - apply Hone; [done..|]. done.
  - apply Hone; [done..|]. done.
Qed.

(** C7 (as amended).  The workload step is a sequence of one to five runs
    of fetch, compare, write.  Each run is followed by another exactly
    when it ended in a Conflict and fewer than five were made; the result
    of the last run is the result of the step, so a Conflict in the fifth
    run is returned.  An update submits the object built from the DataNode
    under the resource version fetched in the same run.  That object
    carries no annotations and, when the API server accepts the update,
    replaces the stored object whole: of the live object only the resource
    version is carried over, fields written by another client in between
    are lost. *)
Theorem workload_conflict_is_retried_then_surfaced r dn envOrder w :
  (∃ runs : list (list Event * Go (option Error)),
     trace serve (ensureWorkload r dn envOrder) w = concat runs.*1
     ∧ (1 ≤ length runs ≤ 5)%nat
     ∧ (∀ n t res, runs !! n = Some (t, res) → Attempt r dn (envOrder n) t res)
     ∧ (∀ n t res, runs !! n = Some (t, res) → (S n < length runs)%nat →
          res = Returned (Some Conflict))
     ∧ (∃ t, last runs
             = Some (t, result serve (ensureWorkload r dn envOrder) w))
     ∧ (result serve (ensureWorkload r dn envOrder) w
          = Returned (Some Conflict) → length runs = 5%nat))
  ∧ (∀ n built,
       constructStateFulSetForDataNode r dn (envOrder n) = Returned (Some built) →
       om_Annotations (st_Meta built) = ∅)
  ∧ (∀ cl submitted,
       (apiServer (UpdateStatefulSet submitted) cl).1 = None →
       cl_StatefulSets (apiServer (UpdateStatefulSet submitted) cl).2
         !! statefulSetKey submitted
       = Some (statefulSetWithVersion submitted (S (cl_Version cl)))).
Proof.
  split; [|split].
  - unfold ensureWorkload.
    destruct (RetryOnConflict_runs DefaultRetrySteps
                (λ n, ensureStatefulSet r dn (envOrder n)) 0%nat None w
                ltac:(unfold DefaultRetrySteps; lia))
      as (runs & Htr & Hlen & Hruns & Hmid & Hlast & Hbudget).
    change DefaultRetrySteps with 5%nat in Hlen, Hbudget.
    exists runs. split; [done|]. split; [done|]. split; [|done].
    intros n t res Hn. destruct (Hruns n t res Hn) as (w' & -> & ->).
    cbn [Nat.add]. apply ensureStatefulSet_attempt.
  - intros n built Hb.
    apply constructStateFulSetForDataNode_inv in Hb as (gvk & _ & -> & _). done.
  - intros cl submitted. cbn [apiServer].
    destruct (cl_StatefulSets cl !! statefulSetKey submitted) as [live|]; [|done].
    case_bool_decide; [|done]. intros _. cbn [snd storeStatefulSet cl_StatefulSets].
    apply lookup_insert_eq.
Qed.

End Pass.

(** ** Two passes against the API server *)

Section Passes.

Context `{Package}.

Implicit Types (r : DataNodeReconciler) (dn : DataNode) (cl : Cluster).

Lemma string_length_app (s t : string) :
  String.length (s +:+ t) = (String.length s + String.length t)%nat.
Proof. induction s as [|c s IH]; simpl; [done|]. by rewrite IH. Qed.

Lemma headless_name_differs (name : string) : name +:+ "-headless" ≠ name.
Proof.
  intros Heq. apply (f_equal String.length) in Heq.
  rewrite string_length_app in Heq. cbn in Heq. lia.
Qed.

Lemma ensureService_absent service cl :
  cl_Services cl !! serviceKey service = None →
  run apiServer (ensureService service) cl =
  (None, storeService service cl,
   [ (GetService (serviceKey service), GotService (GetFailed NotFound));
     (CreateService service, Wrote None) ]).
Proof.
  intros Hnone. unfold ensureService. fold (serviceKey service).
  cbn [run apiServer]. rewrite Hnone. cbn [lookupResult IsNotFound run apiServer].
  rewrite Hnone. reflexivity.
Qed.

Lemma ensureService_same service live cl :
  cl_Services cl !! serviceKey service = Some live →
  svc_Spec live = svc_Spec service →
  run apiServer (ensureService service) cl =
  (None, cl, [ (GetService (serviceKey service), GotService (Found live)) ]).
Proof.
  intros Hlive Hspec. unfold ensureService, DeepEqual. fold (serviceKey service).
  cbn [run apiServer]. rewrite Hlive. cbn [lookupResult].
  rewrite bool_decide_eq_true_2 by done. reflexivity.
Qed.

Lemma run_parts {A} (p : Prog A) cl a cl' t :
  run apiServer p cl = (a, cl', t) →
  result apiServer p cl = a ∧ final apiServer p cl = cl'
  ∧ trace apiServer p cl = t.
Proof. unfold result, final, trace. by intros ->. Qed.

(** The services of a cluster that has none of them are all created. *)
Lemma rangeServices_creates services : ∀ cl,
  NoDup (serviceKey <$> services) →
  (∀ s, s ∈ services → cl_Services cl !! serviceKey s = None) →
  result apiServer (rangeServices services) cl = None
  ∧ cl_DataNodes (final apiServer (rangeServices services) cl) = cl_DataNodes cl
  ∧ cl_StatefulSets (final apiServer (rangeServices services) cl)
    = cl_StatefulSets cl
  ∧ (∀ key, key ∉ serviceKey <$> services →
       cl_Services (final apiServer (rangeServices services) cl) !! key
       = cl_Services cl !! key)
  ∧ (∀ s, s ∈ services →
       ∃ live, cl_Services (final apiServer (rangeServices services) cl)
                 !! serviceKey s = Some live
               ∧ svc_Spec live = svc_Spec s).
Proof.
  induction services as [|service rest IH]; intros cl Hnd Hnone.
  - cbn. split; [done|]. split; [done|]. split; [done|]. split; [done|].
    intros s Hs. by apply elem_of_nil in Hs.
  - rewrite fmap_cons in Hnd. apply NoDup_cons in Hnd as [Hfresh Hnd].
    cbn [rangeServices]. unfold mbind, Prog_bind.
    rewrite result_bind, final_bind.
    destruct (run_parts _ _ _ _ _ (ensureService_absent service cl
                (Hnone service ltac:(apply elem_of_cons; by left))))
      as (-> & -> & _).
    assert (Hrest : ∀ s, s ∈ rest →
              cl_Services (storeService service cl) !! serviceKey s = None).
    { intros s Hs. cbn [storeService cl_Services].
      rewrite lookup_insert_ne.
      - apply Hnone, elem_of_cons. by right.
      - intros Heq. apply Hfresh. rewrite Heq. by apply list_elem_of_fmap_2. }
    destruct (IH (storeService service cl) Hnd Hrest)
      as (Hres & Hdn & Hsts & Hother & Hstored).
    split; [done|]. split; [by rewrite Hdn|]. split; [by rewrite Hsts|]. split.
    + intros key Hkey. rewrite fmap_cons, not_elem_of_cons in Hkey.
      destruct Hkey as [Hne Hkey]. rewrite (Hother key Hkey).
      cbn [storeService cl_Services]. by rewrite lookup_insert_ne.
    + intros s Hs. apply elem_of_cons in Hs as [->|Hs]; [|by apply Hstored].
      rewrite (Hother _ Hfresh). cbn [storeService cl_Services].
      rewrite lookup_insert_eq. by eexists.
Qed.

(** The services of a cluster that stores them with the desired Spec are
    read and left alone. *)
Lemma rangeServices_converged services : ∀ cl,
  (∀ s, s ∈ services →
     ∃ live, cl_Services cl !! serviceKey s = Some live
             ∧ svc_Spec live = svc_Spec s) →
  result apiServer (rangeServices services) cl = None
  ∧ final apiServer (rangeServices services) cl = cl
  ∧ writes (trace apiServer (rangeServices services) cl) = [].
Proof.
  induction services as [|service rest IH]; intros cl Hlive; [done|].
  destruct (Hlive service ltac:(apply elem_of_cons; by left))
    as (live & Hl & Hspec).
  cbn [rangeServices]. unfold mbind, Prog_bind.
  rewrite result_bind, final_bind, trace_bind.
  destruct (run_parts _ _ _ _ _ (ensureService_same service live cl Hl Hspec))
    as (-> & -> & ->).
  destruct (IH cl) as (Hres & Hfin & Hwr).
  { intros s Hs. apply Hlive, elem_of_cons. by right. }
  split; [done|]. split; [done|].
  unfold writes, calls in *. rewrite fmap_app, filter_app, Hwr. reflexivity.
Qed.

Lemma RetryOnConflict_S steps fn n lastErr :
  RetryOnConflict (S steps) fn n lastErr =
  bind (fn n)
    (λ res, match res with
            | Panicked => Ret Panicked
            | Returned None => Ret (Returned None)
            | Returned (Some err) =>
                if IsConflict err then RetryOnConflict steps fn (S n) (Some err)
                else Ret (Returned (Some err))
            end).
Proof. reflexivity. Qed.

(** One run of the closure on a cluster that has no workload under the
    DataNode's name: the built workload is created, unless its own name is
    taken. *)
Lemma ensureStatefulSet_absent r dn order sts cl :
  cl_StatefulSets cl !! (dn_Namespace dn, dn_Name dn) = None →
  constructStateFulSetForDataNode r dn order = Returned (Some sts) →
  run apiServer (ensureStatefulSet r dn order) cl =
  match cl_StatefulSets cl !! statefulSetKey sts with
  | None =>
      (Returned None, storeStatefulSet sts cl,
       [ (GetStatefulSet (dn_Namespace dn, dn_Name dn),
          GotStatefulSet (GetFailed NotFound));
         (CreateStatefulSet sts, Wrote None) ])
  | Some _ =>
      (Returned (Some AlreadyExists), cl,
       [ (GetStatefulSet (dn_Namespace dn, dn_Name dn),
          GotStatefulSet (GetFailed NotFound));
         (CreateStatefulSet sts, Wrote (Some AlreadyExists)) ])
  end.
Proof.
  intros Hmiss Hb. unfold ensureStatefulSet.
  rewrite run_Do. cbn [apiServer fst snd]. rewrite Hmiss.
  cbn [lookupResult IsNotFound]. rewrite Hb, run_Do. cbn [apiServer fst snd].
  destruct (cl_StatefulSets cl !! statefulSetKey sts); reflexivity.
Qed.

Lemma ensureWorkload_absent r dn envOrder sts cl :
  cl_StatefulSets cl !! (dn_Namespace dn, dn_Name dn) = None →
  constructStateFulSetForDataNode r dn (envOrder 0%nat) = Returned (Some sts) →
  run apiServer (ensureWorkload r dn envOrder) cl =
  run apiServer (ensureStatefulSet r dn (envOrder 0%nat)) cl.
Proof.
  intros Hmiss Hb. unfold ensureWorkload, DefaultRetrySteps.
  rewrite RetryOnConflict_S, run_bind.
  rewrite (ensureStatefulSet_absent r dn (envOrder 0%nat) sts cl Hmiss Hb).
  destruct (cl_StatefulSets cl !! statefulSetKey sts); reflexivity.
Qed.

Lemma constructServiceForDataNode_registered r dn order gvk :
  scheme_DataNode (r_Scheme r) = Some gvk →
  ∃ services, constructServiceForDataNode r dn order = inr services.
Proof.
  intros Hgvk. unfold constructServiceForDataNode.
  rewrite !stamp_service_meta, Hgvk.
  destruct (dn_Service (dn_Spec dn)); [|by eexists].
  case_bool_decide; [|by eexists]. destruct (rangePorts _ _ _).
  case_bool_decide; by eexists.
Qed.

Lemma constructStateFulSetForDataNode_registered r dn order gvk :
  scheme_DataNode (r_Scheme r) = Some gvk →
  ∃ sts, constructStateFulSetForDataNode r dn order = Returned (Some sts).
Proof.
  intros Hgvk. unfold constructStateFulSetForDataNode.
  rewrite constructPVCForDataNode_eq, Hgvk.
  change (SetControllerReference dn _ (r_Scheme r))
    with (SetControllerReference dn (serviceMeta DataNodeName dn) (r_Scheme r)).
  rewrite stamp_service_meta, Hgvk. by eexists.
Qed.

Lemma ensureStatefulSet_same r dn order sts current cl :
  cl_StatefulSets cl !! (dn_Namespace dn, dn_Name dn) = Some current →
  constructStateFulSetForDataNode r dn order = Returned (Some sts) →
  st_Spec current = st_Spec sts →
  run apiServer (ensureStatefulSet r dn order) cl =
  (Returned None, cl,
   [ (GetStatefulSet (dn_Namespace dn, dn_Name dn),
      GotStatefulSet (Found current)) ]).
Proof.
  intros Hcur Hb Hspec. unfold ensureStatefulSet, DeepEqual.
  rewrite run_Do. cbn [apiServer fst snd]. rewrite Hcur.
  cbn [lookupResult]. rewrite Hb, bool_decide_eq_true_2 by done. reflexivity.
Qed.

(** The first pass on a cluster that has the DataNode and nothing else
    creates the services and the workload. *)
Lemma first_pass_creates r dn gvk portsOrder envOrder :
  scheme_DataNode (r_Scheme r) = Some gvk →
  let pass := Reconcile r (dn_Namespace dn, dn_Name dn) portsOrder envOrder in
  ∃ services sts cl1,
    constructServiceForDataNode r dn portsOrder = inr services
    ∧ constructStateFulSetForDataNode r dn (envOrder 0%nat) = Returned (Some sts)
    ∧ statefulSetKey sts = (dn_Namespace dn, DataNodeName)
    ∧ result apiServer pass (clusterWith dn) = Returned None
    ∧ final apiServer pass (clusterWith dn) = storeStatefulSet sts cl1
    ∧ cl_DataNodes cl1 !! (dn_Namespace dn, dn_Name dn) = Some dn
    ∧ cl_StatefulSets cl1 = ∅
    ∧ (∀ s, s ∈ services →
         ∃ live, cl_Services cl1 !! serviceKey s = Some live
                 ∧ svc_Spec live = svc_Spec s).
Proof.
  intros Hgvk pass.
  destruct (constructServiceForDataNode_registered r dn portsOrder gvk Hgvk)
    as [services Hs].
  destruct (constructServiceForDataNode_inv _ _ _ _ Hs)
    as (headless & rest & Hservices & Hhk & _ & Hlen & Hrk).
  assert (Hnd : NoDup (serviceKey <$> services)).
  { rewrite Hservices, fmap_cons, Hhk. apply NoDup_cons. split.
    - intros Hin. apply list_elem_of_fmap in Hin as (s & Hk & Hin').
      rewrite Forall_forall in Hrk. rewrite (Hrk s Hin') in Hk.
      injection Hk as Hk. by apply headless_name_differs in Hk.
    - destruct rest as [|s [|s' rest]]; [constructor| |cbn in Hlen; lia].
      apply NoDup_singleton. }
  destruct (constructStateFulSetForDataNode_registered r dn (envOrder 0%nat) gvk Hgvk)
    as [sts Hb].
  assert (Hkey : statefulSetKey sts = (dn_Namespace dn, DataNodeName)).
  { destruct (constructStateFulSetForDataNode_inv _ _ _ _ Hb) as (gvk' & _ & Hm & _).
    unfold statefulSetKey. by rewrite Hm. }
  destruct (rangeServices_creates services (clusterWith dn) Hnd
              ltac:(intros; apply lookup_empty))
    as (Hres1 & Hdn1 & Hsts1 & _ & Hstored1).
  set (cl1 := final apiServer (rangeServices services) (clusterWith dn)) in *.
  assert (Hmiss1 : cl_StatefulSets cl1 !! (dn_Namespace dn, dn_Name dn) = None)
    by (by rewrite Hsts1).
  pose proof (ensureWorkload_absent r dn envOrder sts cl1 Hmiss1 Hb) as Hwork.
  rewrite (ensureStatefulSet_absent r dn (envOrder 0%nat) sts cl1 Hmiss1 Hb) in Hwork.
  rewrite Hsts1 in Hwork. unfold clusterWith in Hwork at 1.
  cbn [cl_StatefulSets] in Hwork. rewrite lookup_empty in Hwork.
  apply run_parts in Hwork as (Hwres & Hwfin & _).
  exists services, sts, cl1.
  split; [done|]. split; [done|]. split; [done|].
  assert (Hfirst : result apiServer pass (clusterWith dn) = Returned None
                   ∧ final apiServer pass (clusterWith dn) = storeStatefulSet sts cl1).
  { subst pass. unfold Reconcile. rewrite result_Do, final_Do.
    cbn [apiServer fst snd]. unfold clusterWith at 1 3. cbn [cl_DataNodes].
    rewrite lookup_singleton_eq. cbn [lookupResult]. rewrite Hs.
    unfold mbind, Prog_bind. rewrite result_bind, final_bind, Hres1.
    fold cl1. by rewrite Hwres, Hwfin. }
  destruct Hfirst as [Hr Hf]. split; [done|]. split; [done|].
  split; [rewrite Hdn1; apply lookup_singleton_eq|]. by split.
Qed.

(** C1 (the code at the failing inputs).  For a DataNode whose name is
    not the constant [DataNodeName]: the first pass, on a cluster that has
    the DataNode and nothing else, succeeds; the second pass, on the
    cluster the first one left, looks the workload up under the DataNode's
    name, finds nothing, submits a create for the workload named by the
    constant, and returns the AlreadyExists error. *)
Theorem second_pass_creates_again_and_fails r dn gvk portsOrder envOrder :
  scheme_DataNode (r_Scheme r) = Some gvk →
  dn_Name dn ≠ DataNodeName →
  let pass := Reconcile r (dn_Namespace dn, dn_Name dn) portsOrder envOrder in
  let live := final apiServer pass (clusterWith dn) in
  result apiServer pass (clusterWith dn) = Returned None
  ∧ result apiServer pass live = Returned (Some AlreadyExists)
  ∧ ∃ sts, writes (trace apiServer pass live) = [CreateStatefulSet sts].
Proof.
  intros Hgvk Hname pass live.
  destruct (first_pass_creates r dn gvk portsOrder envOrder Hgvk)
    as (services & sts & cl1 & Hs & Hb & Hkey & Hfirst & Hlive & Hdn1 & Hsts1
        & Hstored1).
  fold pass in Hfirst, Hlive. fold live in Hlive.
  split; [exact Hfirst|].
  assert (Hne : (dn_Namespace dn, DataNodeName) ≠ (dn_Namespace dn, dn_Name dn))
    by congruence.
  assert (Hdn2 : cl_DataNodes live !! (dn_Namespace dn, dn_Name dn) = Some dn)
    by (by rewrite Hlive).
  assert (Hstored2 : ∀ s, s ∈ services →
            ∃ l, cl_Services live !! serviceKey s = Some l
                 ∧ svc_Spec l = svc_Spec s)
    by (by rewrite Hlive).
  destruct (rangeServices_converged services live Hstored2)
    as (Hres2 & Hfin2 & Hwr2).
  assert (Hmiss : cl_StatefulSets live !! (dn_Namespace dn, dn_Name dn) = None).
  { rewrite Hlive. cbn [storeStatefulSet cl_StatefulSets].
    rewrite Hkey, lookup_insert_ne by done. rewrite Hsts1. apply lookup_empty. }
  assert (Hhit : is_Some (cl_StatefulSets live !! statefulSetKey sts)).
  { rewrite Hlive. cbn [storeStatefulSet cl_StatefulSets].
    rewrite lookup_insert_eq. by eexists. }
  destruct Hhit as [stored Hhit].
  pose proof (ensureWorkload_absent r dn envOrder sts live Hmiss Hb) as Hwork2.
  rewrite (ensureStatefulSet_absent r dn (envOrder 0%nat) sts live Hmiss Hb), Hhit
    in Hwork2.
  apply run_parts in Hwork2 as (Hwres2 & _ & Hwtr2).
  subst pass. unfold Reconcile. rewrite result_Do, trace_Do.
  cbn [apiServer fst snd]. rewrite Hdn2. cbn [lookupResult]. rewrite Hs.
  unfold mbind, Prog_bind. rewrite result_bind, trace_bind, Hres2, Hfin2.
  rewrite Hwres2, Hwtr2. split; [reflexivity|]. exists sts.
  unfold writes, calls in *. rewrite fmap_cons, fmap_app.
  rewrite filter_cons_False by (cbn; tauto).
  rewrite filter_app, Hwr2. reflexivity.
Qed.

(** For a DataNode that has the name of the constant, and when the loops
    over its maps yield the same orders as in the first pass, the second
    pass finds everything as desired: it writes nothing and succeeds. *)
Lemma second_pass_writes_nothing_when_named_by_constant
    r dn gvk portsOrder envOrder :
  scheme_DataNode (r_Scheme r) = Some gvk →
  dn_Name dn = DataNodeName →
  let pass := Reconcile r (dn_Namespace dn, dn_Name dn) portsOrder envOrder in
  let live := final apiServer pass (clusterWith dn) in
  result apiServer pass live = Returned None
  ∧ writes (trace apiServer pass live) = [].
Proof.
  intros Hgvk Hname pass live.
  destruct (first_pass_creates r dn gvk portsOrder envOrder Hgvk)
    as (services & sts & cl1 & Hs & Hb & Hkey & _ & Hlive & Hdn1 & Hsts1
        & Hstored1).
  fold pass in Hlive. fold live in Hlive.
  assert (Hdn2 : cl_DataNodes live !! (dn_Namespace dn, dn_Name dn) = Some dn)
    by (by rewrite Hlive).
  assert (Hstored2 : ∀ s, s ∈ services →
            ∃ l, cl_Services live !! serviceKey s = Some l
                 ∧ svc_Spec l = svc_Spec s)
    by (by rewrite Hlive).
  destruct (rangeServices_converged services live Hstored2)
    as (Hres2 & Hfin2 & Hwr2).
  assert (Hcur : cl_StatefulSets live !! (dn_Namespace dn, dn_Name dn)
                 = Some (statefulSetWithVersion sts (S (cl_Version cl1)))).
  { rewrite Hlive, Hname, <- Hkey. cbn [storeStatefulSet cl_StatefulSets].
    apply lookup_insert_eq. }
  assert (Hwork2 : run apiServer (ensureWorkload r dn envOrder) live
                   = (Returned None, live,
                      [ (GetStatefulSet (dn_Namespace dn, dn_Name dn),
                         GotStatefulSet
                           (Found (statefulSetWithVersion sts (S (cl_Version cl1))))) ])).
  { unfold ensureWorkload, DefaultRetrySteps.
    rewrite RetryOnConflict_S, run_bind.
    by rewrite (ensureStatefulSet_same r dn (envOrder 0%nat) sts _ live Hcur Hb). }
  apply run_parts in Hwork2 as (Hwres2 & _ & Hwtr2).
  subst pass. unfold Reconcile. rewrite result_Do, trace_Do.
  cbn [apiServer fst snd]. rewrite Hdn2. cbn [lookupResult]. rewrite Hs.
  unfold mbind, Prog_bind. rewrite result_bind, trace_bind, Hres2, Hfin2.
  rewrite Hwres2, Hwtr2. split; [reflexivity|].
  unfold writes, calls in *. rewrite fmap_cons, fmap_app.
  rewrite filter_cons_False by (cbn; tauto).
  rewrite filter_app, Hwr2. reflexivity.
Qed.

End Passes.

(** * The deployed controller on sample specifications *)

Lemma valid_order_inOrder {V} : valid_order (@inOrder V).
Proof. by intros m. Qed.

Lemma valid_order_reversed {V} : valid_order (@reversed V).
Proof. intros m. apply reverse_Permutation. Qed.

(** C5, counterexample.  A map with two entries, yielded by the loop in
    the other order: the list is not the entries in insertion order
    followed by the injected ones. *)
Lemma env_list_not_in_insertion_order :
  valid_order (@reversed string)
  ∧ dn_Envs specWithEnvs = Some twoEnvs
  ∧ ∃ sts c,
      Deployed.statefulSet Deployed.reconciler
        (sampleNode "datanode" specWithEnvs) reversed = Returned (Some sts)
      ∧ pt_Containers (sts_Template (st_Spec sts)) = [c]
      ∧ c_Env c ≠ (userEnv <$> twoEnvs)
                  ++ @injectedEnv Deployed.package (sampleNode "datanode" specWithEnvs).
Proof.
  split; [apply valid_order_reversed|]. split; [reflexivity|].
  eexists _, _. split; [vm_compute; reflexivity|]. split; [reflexivity|].
  vm_compute. discriminate.
Qed.

Lemma env_list_witness :
  ∃ sts c,
    Deployed.statefulSet Deployed.reconciler
      (sampleNode "datanode" specWithEnvs) reversed = Returned (Some sts)
    ∧ pt_Containers (sts_Template (st_Spec sts)) = [c]
    ∧ c_Env c = (userEnv <$> reverse twoEnvs)
                ++ @injectedEnv Deployed.package (sampleNode "datanode" specWithEnvs)
    ∧ reverse twoEnvs ≡ₚ twoEnvs.
Proof.
  eexists. 
  destruct (@env_list_is_ranged_entries_then_injected Deployed.package
              Deployed.reconciler (sampleNode "datanode" specWithEnvs) reversed _
              valid_order_reversed ltac:(vm_compute; reflexivity))
    as (c & Hc & Henv & Hperm).
  exists c. split; [vm_compute; reflexivity|]. by repeat split.
Defined.

(** C2, counterexample.  An exposure entry under the registry name of the
    internal port, next to one under the name of the RPC port: the
    exposure service has the RPC port alone; the internal port's number is
    applied to no port of it and the user's 30002 survives nowhere. *)
Lemma exposure_entry_under_registry_name_not_applied :
  registryPort "dn_internal_port" = Some 10730
  ∧ ∃ headless exposure,
      Deployed.services Deployed.reconciler
        (sampleNode "datanode"
           (specWithPorts [("dn_rpc_port", 30001); ("dn_internal_port", 30002)]))
        inOrder
      = inr [headless; exposure]
      ∧ ss_Ports (svc_Spec headless) = headlessPorts
      ∧ ss_Ports (svc_Spec exposure)
        = [ {| sp_Name := "dn-rpc-port"; sp_Port := 6667; sp_NodePort := 30001;
               sp_TargetPort := IntVal 6667 |} ].
Proof.
  split; [reflexivity|]. eexists _, _.
  split; [vm_compute; reflexivity|]. split; reflexivity.
Qed.

Lemma registry_names_witness :
  ∃ services exposure,
    Deployed.services Deployed.reconciler (sampleNode "datanode" sampleSpec) reversed
      = inr services
    ∧ services !! 1%nat = Some exposure
    ∧ {| sp_Name := "dn-rpc-port"; sp_Port := 6667; sp_NodePort := 30001;
         sp_TargetPort := IntVal 6667 |} ∈ ss_Ports (svc_Spec exposure).
Proof.
  eexists.
  destruct (@registry_names_get_canonical_ports Deployed.package
              Deployed.reconciler (sampleNode "datanode" sampleSpec)
              reversed reversed valid_order_reversed valid_order_reversed)
    as [_ Hexposure].
  destruct (Hexposure _ _ ltac:(vm_compute; reflexivity) eq_refl) as [Hports _].
  destruct (Hports "dn_rpc_port" 30001 6667
              ltac:(apply list_elem_of_singleton; reflexivity)
              ltac:(unfold ExposedNames; rewrite !elem_of_cons; tauto)
              eq_refl)
    as (exposure & Hex & Hin).
  exists exposure. split; [vm_compute; reflexivity|]. split; [exact Hex|exact Hin].
Defined.

(** C3, counterexample.  The exposure descriptor names the internal port,
    a name of the registry, and nothing else: the headless service is
    returned alone. *)
Lemma registry_name_alone_gives_no_exposure_service :
  registryPort "dn_internal_port" = Some 10730
  ∧ ∃ headless,
      Deployed.services Deployed.reconciler
        (sampleNode "datanode" (specWithPorts [("dn_internal_port", 31000)]))
        inOrder
      = inr [headless].
Proof. split; [reflexivity|]. eexists. vm_compute. reflexivity. Qed.

Lemma services_shape_witness :
  ∃ headless exposure,
    Deployed.services Deployed.reconciler (sampleNode "datanode" sampleSpec) inOrder
      = inr [headless; exposure]
    ∧ om_Name (svc_Meta headless) = "datanode-headless"
    ∧ om_Name (svc_Meta exposure) = "datanode".
Proof.
  destruct (@services_are_headless_and_maybe_exposure Deployed.package
              Deployed.reconciler (sampleNode "datanode" sampleSpec) inOrder _
              eq_refl valid_order_inOrder)
    as (headless & rest & Hsvcs & Hname & _ & Hlen & Hrest & Hexp).
  destruct rest as [|exposure [|extra rest]].
  - exfalso. apply (proj2 Hrest); [|reflexivity].
    eexists _, "dn_rpc_port", 30001. split; [reflexivity|].
    split; [apply list_elem_of_singleton; reflexivity|].
    unfold ExposedNames. rewrite !elem_of_cons. tauto.
  - exists headless, exposure. split; [exact Hsvcs|]. split; [exact Hname|].
    apply (Hexp exposure _ ltac:(apply list_elem_of_singleton; reflexivity) eq_refl).
  - cbn in Hlen. lia.
Defined.

Lemma headless_exchange_port_witness :
  ∃ services headless,
    Deployed.services Deployed.reconciler (sampleNode "datanode" sampleSpec) inOrder
      = inr services
    ∧ services !! 0%nat = Some headless
    ∧ ss_Ports (svc_Spec headless) !! 1%nat =
        Some {| sp_Name := "dn-mpp-data-exchange-port"; sp_Port := 10740;
                sp_NodePort := 0; sp_TargetPort := IntVal 10750 |}.
Proof.
  eexists.
  destruct (@headless_exchange_port_targets_10750 Deployed.package
              Deployed.reconciler (sampleNode "datanode" sampleSpec) inOrder _
              ltac:(vm_compute; reflexivity))
    as (headless & Hh & _ & _ & Hport & _).
  exists headless. split; [vm_compute; reflexivity|]. by split.
Defined.

(** C6, counterexample.  The live exposure service has the desired ports,
    selector and type; the API server has given it a cluster IP.  The pass
    submits an update. *)
Lemma service_updated_though_ports_selector_type_agree :
  ∃ headless desired,
    Deployed.services Deployed.reconciler (sampleNode "datanode" sampleSpec) inOrder
      = inr [headless; desired]
    ∧ let live := withClusterIP desired "10.96.0.12" 7 in
      ss_Ports (svc_Spec live) = ss_Ports (svc_Spec desired)
      ∧ ss_Selector (svc_Spec live) = ss_Selector (svc_Spec desired)
      ∧ ss_Type (svc_Spec live) = ss_Type (svc_Spec desired)
      ∧ calls (trace apiServer (ensureService desired) (clusterOfService live))
        = [ GetService ("iotdb", "datanode");
            UpdateService (serviceWithVersion desired 7) ].
Proof.
  eexists _, _. split; [vm_compute; reflexivity|].
  cbn zeta. split; [reflexivity|]. split; [reflexivity|]. split; [reflexivity|].
  vm_compute. reflexivity.
Qed.

Lemma service_update_witness :
  ∃ headless desired,
    Deployed.services Deployed.reconciler (sampleNode "datanode" sampleSpec) inOrder
      = inr [headless; desired]
    ∧ calls (trace apiServer (ensureService desired)
               (clusterOfService (withClusterIP desired "10.96.0.12" 7)))
      = [ GetService (serviceKey desired);
          UpdateService (serviceWithVersion desired 7) ].
Proof.
  eexists _, _. split; [vm_compute; reflexivity|].
  lazymatch goal with
  | |- calls (trace _ _ (clusterOfService ?live)) = _ =>
      refine (proj2 (@service_updated_iff_spec_differs Cluster apiServer _ live _ _) _)
  end.
  - vm_compute. reflexivity.
  - unfold sameServiceSpec. vm_compute. intros (_ & Hip & _). discriminate Hip.
Defined.

Lemma workload_builder_panics_witness :
  Deployed.statefulSet Deployed.bareReconciler
    (sampleNode "datanode" sampleSpec) inOrder = Panicked.
Proof.
  apply (@workload_builder_panics_without_kind Deployed.package
           Deployed.bareReconciler (sampleNode "datanode" sampleSpec) inOrder
           eq_refl).
Defined.

Lemma derived_names_witness :
  ∃ sts1 sts2,
    Deployed.statefulSet Deployed.reconciler (sampleNode "first" sampleSpec) inOrder
      = Returned (Some sts1)
    ∧ Deployed.statefulSet Deployed.reconciler (sampleNode "second" specWithEnvs)
        reversed = Returned (Some sts2)
    ∧ statefulSetKey sts1 = ("iotdb", "datanode")
    ∧ statefulSetKey sts1 = statefulSetKey sts2.
Proof.
  eexists _, _. split; [vm_compute; reflexivity|]. split; [vm_compute; reflexivity|].
  destruct (@derived_names_are_fixed Deployed.package Deployed.reconciler
              (sampleNode "first" sampleSpec) (sampleNode "second" specWithEnvs)
              inOrder inOrder inOrder reversed eq_refl)
    as (Hsts & _ & _ & Hsame & _).
  split.
  - apply (Hsts _ eq_refl).
  - apply Hsame; reflexivity.
Defined.

Lemma second_pass_witness :
  let pass := Deployed.pass Deployed.reconciler ("iotdb", "mynode") inOrder
                (λ _, inOrder) in
  let dn := sampleNode "mynode" sampleSpec in
  result apiServer pass (clusterWith dn) = Returned None
  ∧ result apiServer pass (final apiServer pass (clusterWith dn))
    = Returned (Some AlreadyExists)
  ∧ ∃ sts, writes (trace apiServer pass (final apiServer pass (clusterWith dn)))
           = [CreateStatefulSet sts].
Proof.
  apply (@second_pass_creates_again_and_fails Deployed.package
           Deployed.reconciler (sampleNode "mynode" sampleSpec) _
           inOrder (λ _, inOrder) eq_refl).
  vm_compute. discriminate.
Defined.

(** The same two passes for a DataNode that has the name of the constant
    and two environment entries, when the second pass ranges over the map
    in the other order: the workload is found, compares unequal, and is
    updated. *)
Example second_pass_updates_when_range_order_changes :
  let dn := sampleNode "datanode" specWithEnvs in
  let first := Deployed.pass Deployed.reconciler ("iotdb", "datanode") inOrder
                 (λ _, inOrder) in
  let second := Deployed.pass Deployed.reconciler ("iotdb", "datanode") inOrder
                  (λ _, reversed) in
  result apiServer first (clusterWith dn) = Returned None
  ∧ describe <$> writes (trace apiServer second
                           (final apiServer first (clusterWith dn)))
    = [ (VUpdate, KStatefulSet, ("iotdb", "datanode")) ].
Proof. split; vm_compute; reflexivity. Qed.

(** C7, counterexample.  The user has raised the replicas of the sample
    DataNode from 2 to 3.  While the pass is between its fetch of the
    workload and its update, another client annotates the workload.  The
    update is rejected with Conflict, the second run fetches the annotated
    workload and its update is accepted: the stored workload has no
    annotation any more. *)
Lemma retried_update_drops_concurrent_annotation :
  let key := ("iotdb", "datanode") in
  let pass := Deployed.pass Deployed.reconciler key inOrder (λ _, inOrder) in
  let start :=
    editDataNode (sampleNode "datanode" sampleSpec)
      (final apiServer pass (clusterWith (sampleNode "datanode" smallerSpec))) in
  let cluster := apiServerWith (annotateBefore 4 key "team" "storage") in
  result cluster pass (0%nat, start) = Returned None
  ∧ describe <$> calls (trace cluster pass (0%nat, start))
    = [ (VGet, KDataNode, key);
        (VGet, KService, ("iotdb", "datanode-headless"));
        (VGet, KService, key);
        (VGet, KStatefulSet, key); (VUpdate, KStatefulSet, key);
        (VGet, KStatefulSet, key); (VUpdate, KStatefulSet, key) ]
  ∧ snd <$> trace cluster pass (0%nat, start) !! 4%nat = Some (Wrote (Some Conflict))
  ∧ snd <$> trace cluster pass (0%nat, start) !! 6%nat = Some (Wrote None)
  ∧ (∃ fetched,
       snd <$> trace cluster pass (0%nat, start) !! 5%nat
       = Some (GotStatefulSet (Found fetched))
       ∧ om_Annotations (st_Meta fetched) !! "team" = Some "storage")
  ∧ (∃ stored,
       cl_StatefulSets (final cluster pass (0%nat, start)).2 !! key = Some stored
       ∧ sts_Replicas (st_Spec stored) = 3
       ∧ om_Annotations (st_Meta stored) !! "team" = None).
Proof.
  cbn zeta. split; [vm_compute; reflexivity|]. split; [vm_compute; reflexivity|].
  split; [vm_compute; reflexivity|]. split; [vm_compute; reflexivity|]. split.
  - eexists. split; vm_compute; reflexivity.
  - eexists. split; [vm_compute; reflexivity|]. split; vm_compute; reflexivity.
Qed.

(** * Further properties *)

(** ** Of the built workload and services *)

Section Built.

Context `{Package}.

Implicit Types (r : DataNodeReconciler) (dn : DataNode).

(** The workload builder applied to a scheme that has the kind: the
    result, with its metadata and its one claim template stamped. *)
Lemma constructStateFulSetForDataNode_built r dn order sts :
  constructStateFulSetForDataNode r dn order = Returned (Some sts) →
  ∃ gvk c,
    scheme_DataNode (r_Scheme r) = Some gvk
    ∧ st_Meta sts = stamped gvk dn (serviceMeta DataNodeName dn)
    ∧ sts_Replicas (st_Spec sts) = int32 (dn_Replicas (dn_Spec dn))
    ∧ sts_Selector (st_Spec sts) = appLabels
    ∧ sts_ServiceName (st_Spec sts) = DataNodeName +:+ "-headless"
    ∧ pt_Labels (sts_Template (st_Spec sts)) = appLabels
    ∧ pt_RequiredAntiAffinity (sts_Template (st_Spec sts))
      = [ {| pat_MatchLabels := appLabels;
             pat_TopologyKey := "kubernetes.io/hostname" |} ]
    ∧ pt_Containers (sts_Template (st_Spec sts)) = [c]
    ∧ c_Name c = DataNodeName
    ∧ c_Image c = dn_Image (dn_Spec dn)
    ∧ cp_ContainerPort <$> c_Ports c = [6667; 10730; 10740; 10750; 10760; 18080; 9092]
    ∧ rr_Limits (c_Resources c)
      = <[ "cpu" := quantityOf "cpu" (dn_Limits (dn_Spec dn)) ]>
        (<[ "memory" := quantityOf "memory" (dn_Limits (dn_Spec dn)) ]> ∅)
    ∧ rr_Requests (c_Resources c) = rr_Limits (c_Resources c)
    ∧ vm_Name <$> c_VolumeMounts c = replicate 5 DataNodeName
    ∧ vm_MountPath <$> c_VolumeMounts c
      = ["/iotdb/data"; "/iotdb/logs"; "/iotdb/ext"; "/iotdb/.env";
         "/iotdb/activation"]
    ∧ vm_SubPath <$> c_VolumeMounts c = ["data"; "logs"; "ext"; ".env"; "activation"]
    ∧ sts_VolumeClaimTemplates (st_Spec sts)
      = [ {| pvc_Meta := stamped gvk dn (serviceMeta DataNodeName dn);
             pvc_Spec := dn_VolumeClaimTemplate (dn_Spec dn) |} ].
Proof.
  unfold constructStateFulSetForDataNode. rewrite constructPVCForDataNode_eq.
  change (SetControllerReference dn _ (r_Scheme r))
    with (SetControllerReference dn (serviceMeta DataNodeName dn) (r_Scheme r)).
  rewrite stamp_service_meta.
  destruct (scheme_DataNode (r_Scheme r)) as [gvk|]; [|done].
  intros [= <-]. eexists gvk, _. cbn. repeat split; reflexivity.
Qed.

(** X1.  The replica count of the built workload is the DataNode's count
    converted to 32 bits: always within the 32-bit range, congruent to the
    declared count modulo 2^32, and equal to it whenever the declared count
    is itself within range. *)
Theorem replicas_are_the_declared_count_in_32_bits r dn order sts :
  constructStateFulSetForDataNode r dn order = Returned (Some sts) →
  - 2 ^ 31 ≤ sts_Replicas (st_Spec sts) < 2 ^ 31
  ∧ (sts_Replicas (st_Spec sts) - dn_Replicas (dn_Spec dn)) mod 2 ^ 32 = 0
  ∧ (- 2 ^ 31 ≤ dn_Replicas (dn_Spec dn) < 2 ^ 31 →
     sts_Replicas (st_Spec sts) = dn_Replicas (dn_Spec dn)).
Proof.
  intros Hb.
  destruct (constructStateFulSetForDataNode_built _ _ _ _ Hb)
    as (gvk & c & _ & _ & -> & _).
  unfold int32. set (n := dn_Replicas (dn_Spec dn)).
  pose proof (Z.mod_pos_bound (n + 2 ^ 31) (2 ^ 32) ltac:(lia)) as Hbound.
  split; [lia|]. split.
  - replace ((n + 2 ^ 31) `mod` 2 ^ 32 - 2 ^ 31 - n)
      with ((n + 2 ^ 31) `mod` 2 ^ 32 - (n + 2 ^ 31)) by lia.
    rewrite Zminus_mod, Z.mod_mod by lia.
    rewrite Z.sub_diag. reflexivity.
  - intros Hn. rewrite Z.mod_small by lia. lia.
Qed.

(** X2.  The container of the built workload requests exactly what it is
    limited to.  Both lists have the two entries cpu and memory and no
    other: each is the DataNode's limit of that name, or the zero quantity
    when the DataNode declares none; limits under other names are left
    out. *)
Theorem requests_are_the_cpu_and_memory_limits r dn order sts :
  constructStateFulSetForDataNode r dn order = Returned (Some sts) →
  ∃ c, pt_Containers (sts_Template (st_Spec sts)) = [c]
    ∧ rr_Requests (c_Resources c) = rr_Limits (c_Resources c)
    ∧ (∀ name, name = "cpu" ∨ name = "memory" →
         rr_Limits (c_Resources c) !! name
         = Some (default "0" (dn_Limits (dn_Spec dn) !! name)))
    ∧ (∀ name, name ≠ "cpu" → name ≠ "memory" →
         rr_Limits (c_Resources c) !! name = None).
Proof.
  intros Hb.
  destruct (constructStateFulSetForDataNode_built _ _ _ _ Hb)
    as (gvk & c & _ & _ & _ & _ & _ & _ & _ & Hc & _ & _ & _ & Hl & Hr & _).
  exists c. split; [done|]. split; [done|]. rewrite Hl. split.
  - intros name [->| ->].
    + by rewrite lookup_insert_eq.
    + rewrite lookup_insert_ne by done. by rewrite lookup_insert_eq.
  - intros name Hcpu Hmem.
    rewrite !lookup_insert_ne by done. apply lookup_empty.
Qed.

(** X3.  Workload and services agree on the pods: the selector of the
    workload, the labels of its pod template, the labels of its one
    anti-affinity term (per host) and the selector of every built service
    are the same single label, and the workload's governing service name
    is the name of the headless service that is built first. *)
Theorem services_select_the_pods_of_the_workload r dn portsOrder envOrder
    sts services :
  constructStateFulSetForDataNode r dn envOrder = Returned (Some sts) →
  constructServiceForDataNode r dn portsOrder = inr services →
  pt_Labels (sts_Template (st_Spec sts)) = {[ "app" := DataNodeName ]}
  ∧ sts_Selector (st_Spec sts) = pt_Labels (sts_Template (st_Spec sts))
  ∧ pt_RequiredAntiAffinity (sts_Template (st_Spec sts))
    = [ {| pat_MatchLabels := pt_Labels (sts_Template (st_Spec sts));
           pat_TopologyKey := "kubernetes.io/hostname" |} ]
  ∧ Forall (λ s, ss_Selector (svc_Spec s) = pt_Labels (sts_Template (st_Spec sts)))
      services
  ∧ (om_Name ∘ svc_Meta) <$> head services = Some (sts_ServiceName (st_Spec sts)).
Proof.
  intros Hb Hs.
  destruct (constructStateFulSetForDataNode_built _ _ _ _ Hb)
    as (gvk & c & _ & _ & _ & Hsel & Hsn & Hlab & Haff & _).
  rewrite Hsel, Hlab, Haff, Hsn.
  split; [done|]. split; [done|]. split; [done|].
  revert Hs. unfold constructServiceForDataNode. rewrite !stamp_service_meta.
  destruct (scheme_DataNode (r_Scheme r)) as [gvk'|]; [|done].
  destruct (dn_Service (dn_Spec dn)) as [svc|];
    [|intros [= <-]; split; [by repeat constructor|done]].
  case_bool_decide; [|intros [= <-]; split; [by repeat constructor|done]].
  destruct (rangePorts _ _ _) as [i ports].
  case_bool_decide; intros [= <-]; (split; [by repeat constructor|done]).
Qed.

(** X4.  The container mounts five sub-paths of one volume, at five
    different paths, and every mount names a claim template the workload
    has: the single template, which carries the DataNode's claim
    specification unchanged. *)
Theorem every_mount_names_the_claim_template r dn order sts :
  constructStateFulSetForDataNode r dn order = Returned (Some sts) →
  ∃ c pvc,
    pt_Containers (sts_Template (st_Spec sts)) = [c]
    ∧ sts_VolumeClaimTemplates (st_Spec sts) = [pvc]
    ∧ pvc_Spec pvc = dn_VolumeClaimTemplate (dn_Spec dn)
    ∧ length (c_VolumeMounts c) = 5%nat
    ∧ Forall (λ m, vm_Name m = om_Name (pvc_Meta pvc)) (c_VolumeMounts c)
    ∧ NoDup (vm_MountPath <$> c_VolumeMounts c)
    ∧ NoDup (vm_SubPath <$> c_VolumeMounts c).
Proof.
  intros Hb.
  destruct (constructStateFulSetForDataNode_built _ _ _ _ Hb)
    as (gvk & c & _ & _ & _ & _ & _ & _ & _ & Hc & _ & _ & _ & _ & _
        & Hnames & Hpaths & Hsubs & Hvct).
  eexists c, _. split; [done|]. split; [exact Hvct|]. split; [done|].
  split; [by rewrite <- (length_fmap vm_Name), Hnames|]. split.
  - apply Forall_fmap with (f := vm_Name) (P := λ n, n = DataNodeName).
    rewrite Hnames. by repeat constructor.
  - rewrite Hpaths, Hsubs.
    split;
      repeat (apply NoDup_cons;
              split; [rewrite ?elem_of_cons, elem_of_nil; by intuition|]);
      apply NoDup_nil_2.
Qed.

(** X5.  A user's environment entry whose key is no registry name passes
    into the container unchanged, and the list has exactly three entries
    more than the user's map. *)
Theorem other_env_entries_pass_unchanged r dn order sts envs :
  valid_order order →
  constructStateFulSetForDataNode r dn order = Returned (Some sts) →
  dn_Envs (dn_Spec dn) = Some envs →
  ∃ c, pt_Containers (sts_Template (st_Spec sts)) = [c]
    ∧ length (c_Env c) = (length envs + 3)%nat
    ∧ ∀ key value, (key, value) ∈ envs → registryPort key = None →
        {| ev_Name := key; ev_Value := value; ev_ValueFrom := None |} ∈ c_Env c.
Proof.
  intros Hord Hb Henvs.
  destruct (constructStateFulSetForDataNode_env _ _ _ _ Hb) as (c & Hc & Henv).
  exists c. split; [done|]. rewrite Henv, (envVarsFor_eq _ _ Hord), Henvs. split.
  - rewrite length_app, length_fmap, (Permutation_length (Hord envs)). done.
  - intros key value Hin Hnone. apply elem_of_app. left.
    apply list_elem_of_fmap. exists (key, value). split.
    + unfold userEnv. cbn [fst snd]. by rewrite rewriteEnv_registry, Hnone.
    + by rewrite (Hord envs).
Qed.

Lemma exposed_targets key p :
  key ∈ ExposedNames → registryPort key = Some p →
  p ∈ [6667; 10730; 10740; 10750; 10760; 18080; 9092].
Proof.
  unfold ExposedNames. rewrite !elem_of_cons, elem_of_nil.
  intros [->|[->|[->|[]]]] [= <-]; tauto.
Qed.

(** X6.  No service port dangles: every port of every built service, the
    headless one and the exposure one, targets a number that the container
    of the built workload declares as one of its ports; and every number of
    the port registry is both a container port and a service port of the
    headless service. *)
Theorem every_service_port_targets_a_container_port r dn portsOrder envOrder
    sts services :
  valid_order portsOrder →
  constructStateFulSetForDataNode r dn envOrder = Returned (Some sts) →
  constructServiceForDataNode r dn portsOrder = inr services →
  ∃ c headless,
    pt_Containers (sts_Template (st_Spec sts)) = [c]
    ∧ head services = Some headless
    ∧ (∀ s port, s ∈ services → port ∈ ss_Ports (svc_Spec s) →
         ∃ p, sp_TargetPort port = IntVal p ∧ p ∈ cp_ContainerPort <$> c_Ports c)
    ∧ (∀ key p, registryPort key = Some p →
         p ∈ cp_ContainerPort <$> c_Ports c
         ∧ p ∈ sp_Port <$> ss_Ports (svc_Spec headless)).
Proof.
  intros Hord Hb Hs.
  destruct (constructStateFulSetForDataNode_built _ _ _ _ Hb)
    as (gvk & c & Hgvk & _ & _ & _ & _ & _ & _ & Hc & _ & _ & Hports & _).
  rewrite (constructServiceForDataNode_eq _ _ _ gvk Hgvk Hord) in Hs.
  injection Hs as <-. eexists c, _. split; [done|]. split; [reflexivity|].
  rewrite Hports. split.
  - intros s port Hin Hport.
    apply elem_of_cons in Hin as [->|Hin].
    + cbn [headlessService svc_Spec ss_Ports] in Hport.
      unfold headlessPorts in Hport. rewrite !elem_of_cons, elem_of_nil in Hport.
      destruct Hport as [->|[->|[->|[->|[->|[->|[->|[]]]]]]]];
        eexists; (split; [reflexivity|]); rewrite !elem_of_cons; tauto.
    + destruct (dn_Service (dn_Spec dn)) as [svc|]; [|by apply elem_of_nil in Hin].
      destruct (exposedPorts (portsOrder (dns_Ports svc))) as [|p0 ps] eqn:E;
        [by apply elem_of_nil in Hin|].
      apply list_elem_of_singleton in Hin as ->.
      cbn [exposureService svc_Spec ss_Ports] in Hport. rewrite <- E in Hport.
      apply elem_of_exposedPorts in Hport as (key & value & p & _ & Hkey & Hp & ->).
      exists p. split; [reflexivity|]. by eapply exposed_targets.
  - intros key p Hp. unfold registryPort, PortRegistry in Hp.
    cbn [List.find fst snd] in Hp.
    repeat (match type of Hp with
            | context [String.eqb ?k key] => destruct (String.eqb k key)
            end;
            [injection Hp as <-; split; cbn; rewrite !elem_of_cons; tauto|]).
    done.
Qed.

(** X7.  The builders fail together, and only for want of the kind.  The
    service builder returns an error exactly when the scheme lacks the
    DataNode kind, and then the error is the scheme's and no service is
    returned; the claim builder returns nil exactly then; the workload
    builder panics exactly then and otherwise returns a workload: its own
    branch that returns nil is never taken. *)
Theorem builders_fail_only_without_kind r dn portsOrder envOrder :
  (scheme_DataNode (r_Scheme r) = None ↔
     constructServiceForDataNode r dn portsOrder = inl SchemeError)
  ∧ (∀ err, constructServiceForDataNode r dn portsOrder = inl err →
       err = SchemeError)
  ∧ (scheme_DataNode (r_Scheme r) = None ↔ constructPVCForDataNode r dn = None)
  ∧ (scheme_DataNode (r_Scheme r) = None ↔
       constructStateFulSetForDataNode r dn envOrder = Panicked)
  ∧ constructStateFulSetForDataNode r dn envOrder ≠ Returned None.
Proof.
  assert (Hsvc : ∀ err, constructServiceForDataNode r dn portsOrder = inl err →
            scheme_DataNode (r_Scheme r) = None ∧ err = SchemeError).
  { intros err. unfold constructServiceForDataNode. rewrite !stamp_service_meta.
    destruct (scheme_DataNode (r_Scheme r)); [|by intros [= <-]].
    destruct (dn_Service (dn_Spec dn)); [|done].
    case_bool_decide; [|done]. destruct (rangePorts _ _ _).
    by case_bool_decide. }
  assert (Hsts : constructStateFulSetForDataNode r dn envOrder =
            match scheme_DataNode (r_Scheme r) with
            | None => Panicked
            | Some _ => constructStateFulSetForDataNode r dn envOrder
            end)
    by (destruct (scheme_DataNode (r_Scheme r)) eqn:E; [done|];
        unfold constructStateFulSetForDataNode;
        by rewrite constructPVCForDataNode_eq, E).
  split; [|split; [|split; [|split]]].
  - split; [apply constructServiceForDataNode_unregistered|]. intros Herr.
    by apply Hsvc in Herr as [? _].
  - intros err Herr. by apply Hsvc in Herr as [_ ?].
  - rewrite constructPVCForDataNode_eq.
    by destruct (scheme_DataNode (r_Scheme r)).
  - destruct (scheme_DataNode (r_Scheme r)) as [gvk|] eqn:E.
    + destruct (constructStateFulSetForDataNode_registered r dn envOrder gvk E)
        as [sts ->]. done.
    + by rewrite Hsts.
  - destruct (scheme_DataNode (r_Scheme r)) as [gvk|] eqn:E.
    + destruct (constructStateFulSetForDataNode_registered r dn envOrder gvk E)
        as [sts ->]. done.
    + by rewrite Hsts.
Qed.

Lemma exposedPorts_keys entries :
  ∃ keys, keys `sublist_of` entries.*1
          ∧ Forall (λ key, key ∈ ExposedNames) keys
          ∧ length (exposedPorts entries) = length keys.
Proof.
  induction entries as [|[key value] entries (keys & Hsub & Hall & Hlen)].
  - exists []. by repeat split.
  - unfold exposedPorts in *. cbn [omap list_omap fmap list_fmap fst snd].
    unfold exposed at 1. case_bool_decide as Hkey.
    + assert (Hp : ∃ p, registryPort key = Some p).
      { unfold ExposedNames in Hkey. rewrite !elem_of_cons, elem_of_nil in Hkey.
        destruct Hkey as [->|[->|[->|[]]]]; by eexists. }
      destruct Hp as [p ->]. exists (key :: keys). cbn.
      split; [by apply sublist_skip|]. split; [by constructor|].
      by rewrite <- Hlen.
    + exists keys. cbn. split; [by apply sublist_cons|]. by split.
Qed.

(** X8.  A Go map has each key once.  When the keys of the exposure map
    are distinct, the exposure service has at most three ports and never
    more ports than the map has entries. *)
Theorem exposure_service_has_at_most_three_ports r dn order services svc
    exposure :
  valid_order order →
  NoDup (dns_Ports svc).*1 →
  dn_Service (dn_Spec dn) = Some svc →
  constructServiceForDataNode r dn order = inr services →
  services !! 1%nat = Some exposure →
  (1 ≤ length (ss_Ports (svc_Spec exposure)) ≤ 3)%nat
  ∧ (length (ss_Ports (svc_Spec exposure)) ≤ length (dns_Ports svc))%nat.
Proof.
  intros Hord Hnd Hsvc Hs Hex.
  destruct (scheme_DataNode (r_Scheme r)) as [gvk|] eqn:Hgvk;
    [|by rewrite constructServiceForDataNode_unregistered in Hs].
  rewrite (constructServiceForDataNode_eq _ _ _ gvk Hgvk Hord), Hsvc in Hs.
  injection Hs as <-.
  assert (Hperm : exposedPorts (order (dns_Ports svc))
                  ≡ₚ exposedPorts (dns_Ports svc)).
  { unfold exposedPorts. by rewrite (Hord (dns_Ports svc)). }
  apply Permutation_length in Hperm.
  destruct (exposedPorts (order (dns_Ports svc))) as [|p0 ps] eqn:E; [done|].
  injection Hex as <-. cbn [exposureService svc_Spec ss_Ports].
  rewrite Hperm.
  assert (Hpos : (1 ≤ length (exposedPorts (dns_Ports svc)))%nat)
    by (rewrite <- Hperm; cbn; lia).
  destruct (exposedPorts_keys (dns_Ports svc)) as (keys & Hsub & Hall & Hlen).
  assert (Hnd' : NoDup keys) by (by eapply sublist_NoDup).
  assert (Hle : (length keys ≤ length ExposedNames)%nat).
  { apply submseteq_length, NoDup_submseteq; [done|].
    by apply Forall_forall. }
  pose proof (sublist_length _ _ Hsub) as Hle'. rewrite length_fmap in Hle'.
  change (length ExposedNames) with 3%nat in Hle. lia.
Qed.

End Built.

(** ** Of one pass against any cluster *)

Section AnyCluster.

Context `{Package} {W : Type} (serve : ∀ c : Call, W → Reply c * W).

Implicit Types (r : DataNodeReconciler) (dn : DataNode).

(** X9.  When the DataNode cannot be fetched the pass ends after that one
    read, without a write: as a success when the answer is NotFound (the
    DataNode was deleted), with the error of the read otherwise. *)
Theorem pass_ends_when_datanode_is_not_fetched r req portsOrder envOrder w err :
  (serve (GetDataNode req) w).1 = GetFailed err →
  calls (trace serve (Reconcile r req portsOrder envOrder) w) = [GetDataNode req]
  ∧ result serve (Reconcile r req portsOrder envOrder) w
    = Returned (if IsNotFound err then None else Some err).
Proof.
  intros Hget. unfold Reconcile. rewrite trace_Do, result_Do, Hget.
  by destruct (IsNotFound err).
Qed.

(** X10.  A pass touches nothing but its own objects.  Besides the read of
    the DataNode, every call reads, creates or updates the headless service
    or the exposure service of the DataNode's namespace, reads the workload
    under the DataNode's name, or creates or updates the workload under the
    constant name: no other kind, namespace or name, whatever the cluster
    answers. *)
Theorem pass_touches_only_its_objects r req portsOrder envOrder w :
  match (serve (GetDataNode req) w).1 with
  | Found dn =>
      Forall (λ c, describe c ∈ mayTouch req dn)
        (calls (trace serve (Reconcile r req portsOrder envOrder) w))
  | GetFailed _ =>
      calls (trace serve (Reconcile r req portsOrder envOrder) w)
      = [GetDataNode req]
  end.
Proof.
  unfold Reconcile. rewrite trace_Do.
  destruct ((serve (GetDataNode req) w).1) as [dn|err];
    [|by destruct (IsNotFound err)].
  unfold calls. cbn [fmap list_fmap fst].
  constructor; [unfold mayTouch; cbn; rewrite !elem_of_cons; tauto|].
  destruct (constructServiceForDataNode r dn portsOrder) as [err|services] eqn:Hs;
    [constructor|].
  destruct (constructServiceForDataNode_inv _ _ _ _ Hs)
    as (headless & rest & -> & Hhk & _ & _ & Hrk).
  apply AllCalls_trace. unfold mbind, Prog_bind. apply AllCalls_bind.
  - apply AllCalls_rangeServices.
    assert (Hall : Forall (λ s, serviceKey s
                                = (dn_Namespace dn, DataNodeName +:+ "-headless")
                                ∨ serviceKey s = (dn_Namespace dn, DataNodeName))
                     (headless :: rest)).
    { constructor; [by left|]. eapply Forall_impl; [exact Hrk|]. by right. }
    eapply Forall_impl; [exact Hall|]. intros s Hk.
    unfold mayTouch. cbn [describe serviceWithVersion svc_Meta withVersion
                          om_Namespace om_Name].
    unfold serviceKey in Hk.
    repeat split; try intros rv; destruct Hk as [-> | ->];
      rewrite !elem_of_cons; tauto.
  - intros [err|]; [done|]. apply AllCalls_RetryOnConflict. intros n.
    apply AllCalls_ensureStatefulSet.
    + unfold mayTouch. cbn. rewrite !elem_of_cons. tauto.
    + intros built Hb.
      destruct (constructStateFulSetForDataNode_inv _ _ _ _ Hb)
        as (gvk & _ & Hm & _).
      unfold mayTouch.
      cbn [describe statefulSetWithVersion st_Meta withVersion om_Namespace om_Name].
      rewrite Hm. cbn [stamped serviceMeta om_Namespace om_Name].
      split; [|intros rv]; rewrite !elem_of_cons; tauto.
Qed.

(** *** How many calls a pass makes *)

Lemma Costs_mono {A} cost (p : Prog A) : ∀ n m,
  (n ≤ m)%nat → Costs cost n p → Costs cost m p.
Proof.
  induction p as [a|c k IH]; intros n m Hle; cbn [Costs]; [done|].
  intros [Hc Hk]. split; [lia|]. intros rep.
  apply (IH rep (n - cost c)%nat); [lia|apply Hk].
Qed.

Lemma Costs_bind {A B} cost (p : Prog A) (f : A → Prog B) : ∀ n m,
  Costs cost n p → (∀ a, Costs cost m (f a)) → Costs cost (n + m) (bind p f).
Proof.
  induction p as [a|c k IH]; intros n m Hp Hf; cbn [bind Costs] in *.
  - apply (Costs_mono cost (f a) m); [lia|apply Hf].
  - destruct Hp as [Hc Hk]. split; [lia|]. intros rep.
    replace (n + m - cost c)%nat with ((n - cost c) + m)%nat by lia.
    by apply IH.
Qed.

Lemma Costs_trace {A} cost (p : Prog A) : ∀ n w,
  Costs cost n p → (sum_list_with cost (calls (trace serve p w)) ≤ n)%nat.
Proof.
  induction p as [a|c k IH]; intros n w Hp.
  - cbn. lia.
  - destruct Hp as [Hc Hk]. rewrite trace_Do. unfold calls.
    cbn [fmap list_fmap fst sum_list_with].
    specialize (IH _ (n - cost c)%nat (serve c w).2 (Hk (serve c w).1)).
    unfold calls in IH. lia.
Qed.

Lemma length_as_cost (l : list Call) : length l = sum_list_with (λ _, 1%nat) l.
Proof. induction l as [|c l IH]; cbn; [done|]. by rewrite IH. Qed.

Lemma length_writes_as_cost (t : list Event) :
  length (writes t) = sum_list_with writeCost (calls t).
Proof.
  unfold writes. generalize (calls t). intros l.
  induction l as [|call l IH]; [done|].
  rewrite filter_cons. unfold writeCost at 1. cbn [sum_list_with].
  destruct (isWrite call) eqn:E.
  - rewrite decide_True by done. cbn [length]. rewrite IH. reflexivity.
  - rewrite decide_False by (by intros []). rewrite IH. reflexivity.
Qed.

Section Cost.

(** A cost that charges a read at most [g] and a write at most [u]. *)
Variables (cost : Call → nat) (g u : nat).
Hypothesis read_cost : ∀ c, isWrite c = false → (cost c ≤ g)%nat.
Hypothesis write_cost : ∀ c, isWrite c = true → (cost c ≤ u)%nat.

Lemma Costs_ensureService service : Costs cost (g + u) (ensureService service).
Proof.
  unfold ensureService. cbn [Costs].
  pose proof (read_cost (GetService (om_Namespace (svc_Meta service),
                                     om_Name (svc_Meta service))) eq_refl).
  split; [lia|]. intros [existing|err].
  - destruct (negb _); cbn [Costs]; [|done].
    pose proof (write_cost (UpdateService
                              (serviceWithVersion service
                                 (om_ResourceVersion (svc_Meta existing))))
                  eq_refl).
    split; [lia|done].
  - destruct (IsNotFound err); cbn [Costs]; [|done].
    pose proof (write_cost (CreateService service) eq_refl). split; [lia|done].
Qed.

Lemma Costs_rangeServices services :
  Costs cost (length services * (g + u)) (rangeServices services).
Proof.
  induction services as [|service rest IH]; [done|].
  cbn [rangeServices length]. unfold mbind, Prog_bind.
  replace (S (length rest) * (g + u))%nat
    with ((g + u) + length rest * (g + u))%nat by lia.
  apply Costs_bind; [apply Costs_ensureService|].
  intros [err|]; [done|apply IH].
Qed.

Lemma Costs_ensureStatefulSet r dn order :
  Costs cost (g + u) (ensureStatefulSet r dn order).
Proof.
  unfold ensureStatefulSet. cbn [Costs].
  pose proof (read_cost (GetStatefulSet (dn_Namespace dn, dn_Name dn)) eq_refl).
  split; [lia|].
  destruct (constructStateFulSetForDataNode r dn order) as [[built|]|].
  - intros [current|err].
    + destruct (negb _); cbn [Costs]; [|done].
      pose proof (write_cost (UpdateStatefulSet
                                (statefulSetWithVersion built
                                   (om_ResourceVersion (st_Meta current))))
                    eq_refl).
      split; [lia|done].
    + destruct (IsNotFound err); cbn [Costs]; [|done].
      pose proof (write_cost (CreateStatefulSet built) eq_refl).
      split; [lia|done].
  - intros [current|err]; [done|]. by destruct (IsNotFound err).
  - intros [current|err]; [done|]. by destruct (IsNotFound err).
Qed.

Lemma Costs_RetryOnConflict steps fn : ∀ n lastErr,
  (∀ n, Costs cost (g + u) (fn n)) →
  Costs cost (steps * (g + u)) (RetryOnConflict steps fn n lastErr).
Proof.
  induction steps as [|steps IH]; intros n lastErr Hfn; [done|].
  cbn [RetryOnConflict]. unfold mbind, Prog_bind.
  replace (S steps * (g + u))%nat with ((g + u) + steps * (g + u))%nat by lia.
  apply Costs_bind; [apply Hfn|].
  intros [[err|]|]; [|done..]. destruct (IsConflict err); [by apply IH|done].
Qed.

Lemma Costs_Reconcile r req portsOrder envOrder :
  Costs cost (g + 7 * (g + u)) (Reconcile r req portsOrder envOrder).
Proof.
  unfold Reconcile. cbn [Costs].
  pose proof (read_cost (GetDataNode req) eq_refl).
  split; [lia|]. intros [dn|err]; [|by destruct (IsNotFound err)].
  destruct (constructServiceForDataNode r dn portsOrder) as [err|services] eqn:Hs;
    [done|].
  destruct (constructServiceForDataNode_inv _ _ _ _ Hs)
    as (headless & rest & -> & _ & _ & Hlen & _).
  unfold mbind, Prog_bind.
  apply (Costs_mono cost _ (2 * (g + u) + 5 * (g + u))%nat); [lia|].
  apply Costs_bind.
  - apply (Costs_mono cost _ (length (headless :: rest) * (g + u))%nat);
      [cbn [length]; nia|apply Costs_rangeServices].
  - intros [err|]; [done|]. unfold ensureWorkload.
    apply (Costs_RetryOnConflict DefaultRetrySteps). intros n.
    apply Costs_ensureStatefulSet.
Qed.

End Cost.

(** X11.  A pass is short.  Whatever the cluster answers, it makes at most
    fifteen calls, of which at most seven are writes (two for the services,
    five for the workload, one per run of the retried step). *)
Theorem pass_makes_at_most_fifteen_calls r req portsOrder envOrder w :
  (length (trace serve (Reconcile r req portsOrder envOrder) w) ≤ 15)%nat
  ∧ (length (writes (trace serve (Reconcile r req portsOrder envOrder) w)) ≤ 7)%nat.
Proof.
  split.
  - set (t := trace serve (Reconcile r req portsOrder envOrder) w).
    assert (Hlen : length t = length (calls t))
      by (unfold calls; by rewrite length_fmap).
    rewrite Hlen, length_as_cost. subst t.
    apply (Costs_trace (λ _, 1%nat) _ 15).
    apply (Costs_Reconcile (λ _, 1%nat) 1 1); intros; lia.
  - rewrite length_writes_as_cost.
    apply (Costs_trace writeCost _ 7).
    apply (Costs_Reconcile writeCost 0 1); intros c Hc; unfold writeCost;
      rewrite Hc; lia.
Qed.

(** *** How a pass ends *)

Lemma AllResults_bind {A B} (P : A → Prop) (Q : B → Prop) (p : Prog A)
    (f : A → Prog B) :
  AllResults P p → (∀ a, P a → AllResults Q (f a)) → AllResults Q (bind p f).
Proof.
  intros Hp Hf. induction p as [a|c k IH]; cbn [bind AllResults] in *; [auto|].
  intros rep. apply IH, Hp.
Qed.

Lemma AllResults_result {A} (P : A → Prop) (p : Prog A) w :
  AllResults P p → P (result serve p w).
Proof.
  revert w. induction p as [a|c k IH]; intros w Hp; [done|].
  rewrite result_Do. apply IH, Hp.
Qed.

Lemma AllResults_True {A} (p : Prog A) : AllResults (λ _, True) p.
Proof. induction p; cbn; auto. Qed.

Lemma ensureStatefulSet_returns r dn order sts :
  constructStateFulSetForDataNode r dn order = Returned (Some sts) →
  AllResults (λ res, res ≠ Panicked) (ensureStatefulSet r dn order).
Proof.
  intros Hb. unfold ensureStatefulSet. rewrite Hb. cbn [AllResults].
  intros [current|err].
  - destruct (negb _); cbn [AllResults]; done.
  - destruct (IsNotFound err); cbn [AllResults]; done.
Qed.

Lemma RetryOnConflict_returns steps fn : ∀ n lastErr,
  (∀ n, AllResults (λ res, res ≠ Panicked) (fn n)) →
  AllResults (λ res, res ≠ Panicked) (RetryOnConflict steps fn n lastErr).
Proof.
  induction steps as [|steps IH]; intros n lastErr Hfn; [done|].
  cbn [RetryOnConflict]. unfold mbind, Prog_bind.
  eapply AllResults_bind; [apply Hfn|].
  intros [[err|]|] Hres; [|done..]. destruct (IsConflict err); [by apply IH|done].
Qed.

(** X12.  A pass never panics.  The two places where [Reconcile] uses the
    workload builder's pointer unchecked are reached only after the service
    builder has succeeded, and then the workload builder succeeds too:
    whatever the scheme and whatever the cluster answers, the pass returns. *)
Theorem pass_never_panics r req portsOrder envOrder w :
  result serve (Reconcile r req portsOrder envOrder) w ≠ Panicked.
Proof.
  apply (AllResults_result (λ res, res ≠ Panicked)).
  unfold Reconcile. cbn [AllResults]. intros [dn|err];
    [|by destruct (IsNotFound err)].
  destruct (constructServiceForDataNode r dn portsOrder) as [err|services] eqn:Hs;
    [done|].
  destruct (constructServiceForDataNode_owned _ _ _ _ Hs) as (gvk & Hgvk & _).
  unfold mbind, Prog_bind.
  eapply AllResults_bind; [apply AllResults_True|].
  intros [err|] _; [done|]. unfold ensureWorkload.
  apply RetryOnConflict_returns. intros n.
  destruct (constructStateFulSetForDataNode_registered r dn (envOrder n) gvk Hgvk)
    as [sts Hb].
  by eapply ensureStatefulSet_returns.
Qed.

(** X13.  Only a Conflict is retried.  When the first run of the workload
    step ends in anything but a Conflict (success, AlreadyExists on the
    create, any other error of the cluster), the step is that one run: the
    same calls, the same result. *)
Theorem workload_step_is_one_run_unless_conflict r dn envOrder w :
  result serve (ensureStatefulSet r dn (envOrder 0%nat)) w
    ≠ Returned (Some Conflict) →
  run serve (ensureWorkload r dn envOrder) w
  = run serve (ensureStatefulSet r dn (envOrder 0%nat)) w.
Proof.
  intros Hres. unfold ensureWorkload, DefaultRetrySteps.
  rewrite RetryOnConflict_S, run_bind. unfold result in Hres. cbn zeta.
  destruct (run serve (ensureStatefulSet r dn (envOrder 0%nat)) w)
    as [[res w1] t1]. cbn [fst snd] in *.
  destruct res as [[err|]|]; cbn; rewrite ?app_nil_r; try done.
  destruct err; cbn; rewrite ?app_nil_r; done.
Qed.

(** *** A failing service ends the pass *)

Lemma serviceFailure_ensureService service w :
  ∀ i e err,
    trace serve (ensureService service) w !! i = Some e →
    serviceFailure e = Some err →
    length (trace serve (ensureService service) w) = S i
    ∧ result serve (ensureService service) w = Some err.
Proof.
  unfold ensureService. rewrite trace_Do, result_Do. cbn [answer].
  destruct ((serve (GetService _) w).1) as [existing|gerr].
  - destruct (negb _).
    + rewrite trace_Do, result_Do, trace_Ret, result_Ret. cbn [answer].
      intros [|[|i]] e err; cbn; [by intros [= <-]| |done].
      intros [= <-]. cbn.
      match goal with |- match ?rep with _ => _ end = _ → _ => destruct rep end;
        [|done].
      by intros [= <-].
    + rewrite trace_Ret, result_Ret.
      intros [|i] e err; cbn; [by intros [= <-]|done].
  - destruct (IsNotFound gerr) eqn:Hnf.
    + rewrite trace_Do, result_Do, trace_Ret, result_Ret. cbn [answer].
      intros [|[|i]] e err; cbn; [intros [= <-]; cbn; by rewrite Hnf| |done].
      intros [= <-]. cbn.
      match goal with |- match ?rep with _ => _ end = _ → _ => destruct rep end;
        [|done].
      by intros [= <-].
    + rewrite trace_Ret, result_Ret.
      intros [|i] e err; cbn; [|done]. intros [= <-]. cbn. rewrite Hnf.
      by intros [= <-].
Qed.

Lemma serviceFailure_rangeServices services : ∀ w i e err,
  trace serve (rangeServices services) w !! i = Some e →
  serviceFailure e = Some err →
  length (trace serve (rangeServices services) w) = S i
  ∧ result serve (rangeServices services) w = Some err.
Proof.
  induction services as [|service rest IH]; intros w i e err; [done|].
  cbn [rangeServices]. unfold mbind, Prog_bind.
  rewrite trace_bind, result_bind.
  pose proof (serviceFailure_ensureService service w) as Hfirst.
  destruct (result serve (ensureService service) w) as [err1|] eqn:Hr1.
  - rewrite trace_Ret, result_Ret, app_nil_r. intros Hi Hf.
    destruct (Hfirst i e err Hi Hf) as [Hlen [= <-]]. done.
  - intros Hi Hf. apply lookup_app_Some in Hi as [Hi|[Hge Hi]].
    + by destruct (Hfirst i e err Hi Hf) as [_ ?].
    + destruct (IH _ _ e err Hi Hf) as [Hlen Hres]. split; [|done].
      rewrite length_app, Hlen. lia.
Qed.

Lemma no_serviceFailure_in_workload r dn envOrder w e :
  e ∈ trace serve (ensureWorkload r dn envOrder) w → serviceFailure e = None.
Proof.
  intros He.
  assert (Hcalls : Forall (λ c, ∀ a, serviceFailure (c, a) = None)
                     (calls (trace serve (ensureWorkload r dn envOrder) w))).
  { apply AllCalls_trace. unfold ensureWorkload.
    apply AllCalls_RetryOnConflict. intros n.
    apply AllCalls_ensureStatefulSet; [done|]. intros built _. by split. }
  rewrite Forall_forall in Hcalls. destruct e as [c a].
  apply (Hcalls c). unfold calls. apply list_elem_of_fmap. by exists (c, a).
Qed.

(** X14.  A failing service ends the pass at once.  When a call on a
    service is answered with an error (a failed create or update, or a
    failed read other than NotFound), that call is the last of the pass and
    the pass returns its error: the remaining services and the workload
    are not touched. *)
Theorem service_failure_ends_the_pass r req portsOrder envOrder w i e err :
  trace serve (Reconcile r req portsOrder envOrder) w !! i = Some e →
  serviceFailure e = Some err →
  length (trace serve (Reconcile r req portsOrder envOrder) w) = S i
  ∧ result serve (Reconcile r req portsOrder envOrder) w = Returned (Some err).
Proof.
  unfold Reconcile. rewrite trace_Do, result_Do. cbn [answer].
  destruct i as [|i]; [by intros [= <-]|]. cbn [lookup list_lookup length].
  destruct ((serve (GetDataNode req) w).1) as [dn|gerr];
    [|by destruct (IsNotFound gerr)].
  destruct (constructServiceForDataNode r dn portsOrder) as [berr|services];
    [done|].
  unfold mbind, Prog_bind. rewrite trace_bind, result_bind.
  set (w1 := (serve (GetDataNode req) w).2).
  pose proof (serviceFailure_rangeServices services w1) as Hsvc.
  destruct (result serve (rangeServices services) w1) as [err1|] eqn:Hr1.
  - rewrite trace_Ret, result_Ret, app_nil_r. intros Hi Hf.
    destruct (Hsvc i e err Hi Hf) as [Hlen [= <-]]. by rewrite Hlen.
  - intros Hi Hf. apply lookup_app_Some in Hi as [Hi|[Hge Hi]].
    + by destruct (Hsvc i e err Hi Hf) as [_ ?].
    + apply list_elem_of_lookup_2, no_serviceFailure_in_workload in Hi.
      congruence.
Qed.

End AnyCluster.

(** ** Of a pass against the API server, from any state *)

Section AnyState.

Context `{Package}.

Implicit Types (r : DataNodeReconciler) (dn : DataNode) (cl : Cluster).










End AnyState.

(** * The further properties on the samples *)

Lemma replicas_witness :
  ∃ sts,
    Deployed.statefulSet Deployed.reconciler (sampleNode "datanode" wideSpec) inOrder
      = Returned (Some sts)
    ∧ dn_Replicas wideSpec = 4294967299
    ∧ sts_Replicas (st_Spec sts) = 3
    ∧ - 2 ^ 31 ≤ sts_Replicas (st_Spec sts) < 2 ^ 31
    ∧ (sts_Replicas (st_Spec sts) - 4294967299) mod 2 ^ 32 = 0.
Proof.
  eexists. split; [vm_compute; reflexivity|]. split; [reflexivity|].
  split; [vm_compute; reflexivity|].
  destruct (@replicas_are_the_declared_count_in_32_bits Deployed.package
              Deployed.reconciler (sampleNode "datanode" wideSpec) inOrder _
              ltac:(vm_compute; reflexivity))
    as (Hrange & Hmod & _).
  split; [exact Hrange|exact Hmod].
Defined.

Lemma requests_witness :
  ∃ sts c,
    Deployed.statefulSet Deployed.reconciler (sampleNode "datanode" wideSpec) inOrder
      = Returned (Some sts)
    ∧ pt_Containers (sts_Template (st_Spec sts)) = [c]
    ∧ rr_Requests (c_Resources c) !! "cpu" = Some "8000m"
    ∧ rr_Requests (c_Resources c) !! "memory" = Some "0"
    ∧ rr_Requests (c_Resources c) !! "ephemeral-storage" = None.
Proof.
  eexists.
  destruct (@requests_are_the_cpu_and_memory_limits Deployed.package
              Deployed.reconciler (sampleNode "datanode" wideSpec) inOrder _
              ltac:(vm_compute; reflexivity))
    as (c & Hc & Hreq & Hin & Hout).
  exists c. split; [vm_compute; reflexivity|]. split; [exact Hc|].
  rewrite Hreq. split; [|split].
  - rewrite (Hin "cpu") by (by left). reflexivity.
  - rewrite (Hin "memory") by (by right). reflexivity.
  - by apply Hout.
Defined.

Lemma selectors_witness :
  ∃ sts services,
    Deployed.statefulSet Deployed.reconciler (sampleNode "mynode" sampleSpec) inOrder
      = Returned (Some sts)
    ∧ Deployed.services Deployed.reconciler (sampleNode "mynode" sampleSpec) inOrder
      = inr services
    ∧ length services = 2%nat
    ∧ Forall (λ s, ss_Selector (svc_Spec s) = {[ "app" := "datanode" ]}) services
    ∧ sts_ServiceName (st_Spec sts) = "datanode-headless".
Proof.
  eexists _, _. split; [vm_compute; reflexivity|]. split; [vm_compute; reflexivity|].
  split; [reflexivity|].
  destruct (@services_select_the_pods_of_the_workload Deployed.package
              Deployed.reconciler (sampleNode "mynode" sampleSpec) inOrder inOrder
              _ _ eq_refl eq_refl)
    as (Hlabels & _ & _ & Hsel & Hname).
  split.
  - eapply Forall_impl; [exact Hsel|]. intros s ->. exact Hlabels.
  - reflexivity.
Defined.

Lemma mounts_witness :
  ∃ sts c pvc,
    Deployed.statefulSet Deployed.reconciler (sampleNode "mynode" sampleSpec) inOrder
      = Returned (Some sts)
    ∧ pt_Containers (sts_Template (st_Spec sts)) = [c]
    ∧ sts_VolumeClaimTemplates (st_Spec sts) = [pvc]
    ∧ pvc_Spec pvc = sampleClaim
    ∧ Forall (λ m, vm_Name m = om_Name (pvc_Meta pvc)) (c_VolumeMounts c).
Proof.
  eexists.
  destruct (@every_mount_names_the_claim_template Deployed.package
              Deployed.reconciler (sampleNode "mynode" sampleSpec) inOrder _
              ltac:(vm_compute; reflexivity))
    as (c & pvc & Hc & Hv & Hspec & _ & Hnames & _).
  exists c, pvc. split; [vm_compute; reflexivity|]. by repeat split.
Defined.

Lemma other_env_witness :
  ∃ sts c,
    Deployed.statefulSet Deployed.reconciler (sampleNode "datanode" specWithEnvs)
      reversed = Returned (Some sts)
    ∧ pt_Containers (sts_Template (st_Spec sts)) = [c]
    ∧ length (c_Env c) = 5%nat
    ∧ {| ev_Name := "dn_max_connection"; ev_Value := "64"; ev_ValueFrom := None |}
        ∈ c_Env c.
Proof.
  eexists.
  destruct (@other_env_entries_pass_unchanged Deployed.package
              Deployed.reconciler (sampleNode "datanode" specWithEnvs) reversed _
              twoEnvs valid_order_reversed ltac:(vm_compute; reflexivity) eq_refl)
    as (c & Hc & Hlen & Hpass).
  exists c. split; [vm_compute; reflexivity|]. split; [exact Hc|].
  split; [exact Hlen|]. apply Hpass; [|reflexivity].
  unfold twoEnvs. rewrite !elem_of_cons. tauto.
Defined.

Lemma targets_witness :
  ∃ sts services c,
    Deployed.statefulSet Deployed.reconciler (sampleNode "datanode" wideSpec) inOrder
      = Returned (Some sts)
    ∧ Deployed.services Deployed.reconciler (sampleNode "datanode" wideSpec) reversed
      = inr services
    ∧ pt_Containers (sts_Template (st_Spec sts)) = [c]
    ∧ ∀ s port, s ∈ services → port ∈ ss_Ports (svc_Spec s) →
        ∃ p, sp_TargetPort port = IntVal p ∧ p ∈ cp_ContainerPort <$> c_Ports c.
Proof.
  eexists _, _.
  destruct (@every_service_port_targets_a_container_port Deployed.package
              Deployed.reconciler (sampleNode "datanode" wideSpec) reversed inOrder
              _ _ valid_order_reversed eq_refl eq_refl)
    as (c & headless & Hc & _ & Htargets & _).
  exists c. split; [vm_compute; reflexivity|]. split; [vm_compute; reflexivity|].
  split; [exact Hc|exact Htargets].
Defined.

Lemma exposure_ports_witness :
  ∃ services exposure,
    Deployed.services Deployed.reconciler (sampleNode "datanode" wideSpec) reversed
      = inr services
    ∧ services !! 1%nat = Some exposure
    ∧ (1 ≤ length (ss_Ports (svc_Spec exposure)) ≤ 3)%nat.
Proof.
  eexists _, _. split; [vm_compute; reflexivity|]. split; [reflexivity|].
  refine (proj1 (@exposure_service_has_at_most_three_ports Deployed.package
                   Deployed.reconciler (sampleNode "datanode" wideSpec) reversed
                   _ _ _ valid_order_reversed _ eq_refl eq_refl eq_refl)).
  cbn. repeat (apply NoDup_cons;
               split; [rewrite ?elem_of_cons, elem_of_nil; by intuition|]).
  apply NoDup_nil_2.
Defined.

Lemma absent_datanode_witness :
  let pass := Deployed.pass Deployed.reconciler ("iotdb", "datanode") inOrder
                (λ _, inOrder) in
  calls (trace apiServer pass emptyCluster) = [GetDataNode ("iotdb", "datanode")]
  ∧ result apiServer pass emptyCluster = Returned None.
Proof.
  apply (@pass_ends_when_datanode_is_not_fetched Deployed.package Cluster apiServer
           Deployed.reconciler ("iotdb", "datanode") inOrder (λ _, inOrder)
           emptyCluster NotFound).
  vm_compute. reflexivity.
Defined.

Lemma one_run_witness :
  let dn := sampleNode "datanode" sampleSpec in
  run (readOnly dn) (@ensureWorkload Deployed.package Deployed.reconciler dn
                       (λ _, inOrder)) ()
  = run (readOnly dn) (@ensureStatefulSet Deployed.package Deployed.reconciler dn
                         inOrder) ()
  ∧ result (readOnly dn) (@ensureStatefulSet Deployed.package Deployed.reconciler dn
                            inOrder) ()
    = Returned (Some (OtherError "forbidden")).
Proof.
  split; [|vm_compute; reflexivity].
  apply (@workload_step_is_one_run_unless_conflict Deployed.package unit
           (readOnly (sampleNode "datanode" sampleSpec)) Deployed.reconciler
           (sampleNode "datanode" sampleSpec) (λ _, inOrder) ()).
  vm_compute. discriminate.
Defined.

Lemma service_failure_witness :
  let dn := sampleNode "datanode" sampleSpec in
  let pass := Deployed.pass Deployed.reconciler ("iotdb", "datanode") inOrder
                (λ _, inOrder) in
  describe <$> calls (trace (readOnly dn) pass ())
  = [ (VGet, KDataNode, ("iotdb", "datanode"));
      (VGet, KService, ("iotdb", "datanode-headless"));
      (VCreate, KService, ("iotdb", "datanode-headless")) ]
  ∧ length (trace (readOnly dn) pass ()) = 3%nat
  ∧ result (readOnly dn) pass () = Returned (Some (OtherError "forbidden")).
Proof.
  cbn zeta. split; [vm_compute; reflexivity|].
  eapply (@service_failure_ends_the_pass Deployed.package unit
            (readOnly (sampleNode "datanode" sampleSpec)) Deployed.reconciler
            ("iotdb", "datanode") inOrder (λ _, inOrder) () 2%nat).
  - vm_compute. reflexivity.
  - reflexivity.
Defined.



(** ** Of the order of reads and writes *)

Section ReadsAndWrites.

Context `{Package} {W : Type} (serve : ∀ c : Call, W → Reply c * W).

Implicit Types (r : DataNodeReconciler) (dn : DataNode).










End ReadsAndWrites.

(** ** Of the addresses in the environment *)

Section Addresses.

Context `{Package}.

Implicit Types (r : DataNodeReconciler) (dn : DataNode).

Lemma string_app_assoc (s t u : string) : (s +:+ t) +:+ u = s +:+ (t +:+ u).
Proof.
  induction s as [|ch s IH]; [done|].
  change (String ch ((s +:+ t) +:+ u) = String ch (s +:+ (t +:+ u))).
  by f_equal.
Qed.

(** X17.  The addresses the controller injects are the DNS names of the
    services involved.  The internal address is the pod's own name under
    the workload's governing service, [$(POD_NAME).<service>.<namespace>.svc.cluster.local],
    and the entry POD_NAME that it refers to, taken from the pod's
    metadata, stands before it in the list; the seed address is replica 0
    of the config node under the config node's headless service, port
    10710. *)
Theorem injected_addresses_are_the_service_names r dn order sts :
  valid_order order →
  constructStateFulSetForDataNode r dn order = Returned (Some sts) →
  ∃ c n,
    pt_Containers (sts_Template (st_Spec sts)) = [c]
    ∧ n = match dn_Envs (dn_Spec dn) with Some envs => length envs | None => 0%nat end
    ∧ c_Env c !! n
      = Some {| ev_Name := "POD_NAME"; ev_Value := "";
                ev_ValueFrom := Some "metadata.name" |}
    ∧ c_Env c !! (n + 1)%nat
      = Some {| ev_Name := "dn_seed_config_node";
                ev_Value := (ConfigNodeName +:+ "-0") +:+ "."
                            +:+ (ConfigNodeName +:+ "-headless") +:+ "."
                            +:+ dn_Namespace dn +:+ ".svc.cluster.local" +:+ ":10710";
                ev_ValueFrom := None |}
    ∧ c_Env c !! (n + 2)%nat
      = Some {| ev_Name := "dn_internal_address";
                ev_Value := "$(POD_NAME)." +:+ sts_ServiceName (st_Spec sts) +:+ "."
                            +:+ dn_Namespace dn +:+ ".svc.cluster.local";
                ev_ValueFrom := None |}
    ∧ length (c_Env c) = (n + 3)%nat.
Proof.
  intros Hord Hb.
  destruct (constructStateFulSetForDataNode_env _ _ _ _ Hb) as (c & Hc & Henv).
  assert (Hsn : sts_ServiceName (st_Spec sts) = DataNodeName +:+ "-headless").
  { revert Hb. unfold constructStateFulSetForDataNode.
    destruct (constructPVCForDataNode r dn); [|done].
    destruct (SetControllerReference _ _ _); [done|]. by intros [= <-]. }
  exists c, (match dn_Envs (dn_Spec dn) with
             | Some envs => length envs | None => 0%nat end).
  split; [done|]. split; [done|].
  rewrite Henv, (envVarsFor_eq _ _ Hord), Hsn.
  assert (Hlen : ∀ envs, length (userEnv <$> order envs) = length envs)
    by (intros envs; by rewrite length_fmap, (Permutation_length (Hord envs))).
  assert (Hinj : ∀ pre,
            (pre ++ injectedEnv dn) !! (length pre + 0)%nat = injectedEnv dn !! 0%nat
            ∧ (pre ++ injectedEnv dn) !! (length pre + 1)%nat = injectedEnv dn !! 1%nat
            ∧ (pre ++ injectedEnv dn) !! (length pre + 2)%nat = injectedEnv dn !! 2%nat).
  { intros pre. repeat split; rewrite lookup_app_r by lia; f_equal; lia. }
  assert (Hvals :
    injectedEnv dn !! 0%nat
      = Some {| ev_Name := "POD_NAME"; ev_Value := "";
                ev_ValueFrom := Some "metadata.name" |}
    ∧ injectedEnv dn !! 1%nat
      = Some {| ev_Name := "dn_seed_config_node";
                ev_Value := (ConfigNodeName +:+ "-0") +:+ "."
                            +:+ (ConfigNodeName +:+ "-headless") +:+ "."
                            +:+ dn_Namespace dn +:+ ".svc.cluster.local" +:+ ":10710";
                ev_ValueFrom := None |}
    ∧ injectedEnv dn !! 2%nat
      = Some {| ev_Name := "dn_internal_address";
                ev_Value := "$(POD_NAME)." +:+ (DataNodeName +:+ "-headless") +:+ "."
                            +:+ dn_Namespace dn +:+ ".svc.cluster.local";
                ev_ValueFrom := None |}).
  { unfold injectedEnv. cbn [lookup list_lookup].
    split; [done|]. split; do 2 f_equal; by rewrite ?string_app_assoc. }
  destruct Hvals as (Hv0 & Hv1 & Hv2).
  destruct (dn_Envs (dn_Spec dn)) as [envs|].
  - destruct (Hinj (userEnv <$> order envs)) as (H0 & H1 & H2).
    rewrite Hlen in H0, H1, H2. rewrite Nat.add_0_r in H0.
    rewrite Hv0 in H0. rewrite Hv1 in H1. rewrite Hv2 in H2.
    split; [exact H0|]. split; [exact H1|]. split; [exact H2|].
    by rewrite length_app, Hlen.
  - split; [exact Hv0|]. split; [exact Hv1|]. split; [exact Hv2|]. done.
Qed.

End Addresses.

Lemma addresses_witness :
  ∃ sts c,
    Deployed.statefulSet Deployed.reconciler (sampleNode "datanode" specWithEnvs)
      reversed = Returned (Some sts)
    ∧ pt_Containers (sts_Template (st_Spec sts)) = [c]
    ∧ ev_Value <$> c_Env c !! 3%nat
      = Some "confignode-0.confignode-headless.iotdb.svc.cluster.local:10710"
    ∧ c_Env c !! 4%nat
      = Some {| ev_Name := "dn_internal_address";
                ev_Value := "$(POD_NAME).datanode-headless.iotdb.svc.cluster.local";
                ev_ValueFrom := None |}.
Proof.
  eexists.
  destruct (@injected_addresses_are_the_service_names Deployed.package
              Deployed.reconciler (sampleNode "datanode" specWithEnvs) reversed _
              valid_order_reversed ltac:(vm_compute; reflexivity))
    as (c & n & Hc & -> & _ & Hseed & Haddr & _).
  exists c. split; [vm_compute; reflexivity|]. split; [exact Hc|].
  split; [exact (f_equal (fmap ev_Value) Hseed)|exact Haddr].
Defined.


Lemma pass_without_kind_witness :
  let dn := sampleNode "datanode" sampleSpec in
  let pass := Deployed.pass Deployed.bareReconciler ("iotdb", "datanode") inOrder
                (λ _, inOrder) in
  result apiServer pass (clusterWith dn) = Returned (Some SchemeError)
  ∧ calls (trace apiServer pass (clusterWith dn)) = [GetDataNode ("iotdb", "datanode")].
Proof.
  apply (@pass_without_kind_fails_before_workload Deployed.package Cluster apiServer
           Deployed.bareReconciler ("iotdb", "datanode") inOrder (λ _, inOrder)
           (clusterWith (sampleNode "datanode" sampleSpec))
           (sampleNode "datanode" sampleSpec) eq_refl).
  vm_compute. reflexivity.
Defined.
